(** * A shallow embedding of the object-storage package

    The development follows the Python sources file by file:

    - [storage/serializers/base.py]            the [Serializer] interface
    - [storage/serializers/json_serializer.py] [JsonSerializer]
    - [storage/serializers/numpy_serializer.py] [NumpySerializer]
    - [storage/serializers/registry.py]        [SerializerRegistry]
    - [storage/local_file_storage.py]          [LocalFileStorage]

    Python values are a first-order datatype [pyval]; the functions of the
    [json], [numpy] and [builtins] modules that the serializers call are
    gathered in the record [pylib] and stay abstract.  The base directory of
    a storage is a finite map from the names of its direct entries to
    regular files and subdirectories, together with the log of file-system
    calls made so far.  A key is used as (part of) a single file name, as in
    the package's own examples; keys with a path separator address files
    outside the listing of the base directory, and the statements that
    speak about the effect of such a call on the listing say so with
    [single_component]. *)

From Stdlib Require Import Strings.String Strings.Ascii Strings.Byte ZArith.
From stdpp Require Import gmap strings list fin_maps pretty.

Set Warnings "-register-all,-clear-no-such-hyp".
Set Default Proof Using "Type".
Local Open Scope string_scope.
Local Open Scope list_scope.

(** ** Python values *)

Abbreviation bytes := (list byte).

(** A NumPy array: element type, shape and the raw elements in C order. *)
Record ndarray := NdArray {
  dtype : string;
  shape : list nat;
  elements : list Z
}.

(** The Python values the serializers distinguish.  A [dict] keeps its
    items in insertion order; its keys are pairwise different. *)
Inductive pyval :=
| PNone
| PBool (b : bool)
| PInt (n : Z)
| PFloat (bits : Z)
| PStr (s : string)
| PDataclass (fields : list (string * pyval))
| PDict (items : list (pyval * pyval))
| PList (l : list pyval)
| PTuple (l : list pyval)
| PObject (attrs : list (string * pyval))
| PArray (a : ndarray)
| POther (descr : string).

(** ** Exceptions and results *)

(** The exceptions that reach the caller of the storage API.  The three
    [KeyError]s of the package are told apart by the message they carry. *)
Inductive error :=
| NoSerializerRegistered (format : string)
    (* KeyError(f"No serializer registered for format: {format}") *)
| UnknownFormat (format : string)
    (* KeyError(f"Unknown format: {format}") *)
| KeyNotFound (key : string)
    (* KeyError(f"Key not found: {key}") *)
| OSError (what : string)
    (* IsADirectoryError, FileNotFoundError, ... raised by pathlib *)
| CodecError (what : string).
    (* TypeError, ValueError, UnicodeDecodeError raised by a codec *)

(** The failure kinds of the specification. *)
Inductive error_kind := UnsupportedFormat | NotFound | IOFailure | DecodeError.

Definition kind_of (e : error) : error_kind :=
  match e with
  | NoSerializerRegistered _ | UnknownFormat _ => UnsupportedFormat
  | KeyNotFound _ => NotFound
  | OSError _ => IOFailure
  | CodecError _ => DecodeError
  end.

Inductive result (A : Type) :=
| Ok (a : A)
| Err (e : error).
Arguments Ok {A} a.
Arguments Err {A} e.

(** ** The base directory *)

Inductive entry :=
| File (data : bytes)
| Dir.

Inductive syscall :=
| SysStat (name : string)
| SysWrite (name : string)
| SysRead (name : string)
| SysUnlink (name : string)
| SysScandir
| SysMkdir.

Record world := World {
  files : gmap string entry;
  trace : list syscall
}.

Definition log (c : syscall) (w : world) : world :=
  World (files w) (trace w ++ [c]).

(** A computation that may touch the file system and may raise. *)
Definition M (A : Type) : Type := world → result A * world.

Definition ret {A} (a : A) : M A := λ w, (Ok a, w).
Definition raise {A} (e : error) : M A := λ w, (Err e, w).
Definition lift {A} (r : result A) : M A := λ w, (r, w).
Definition bind {A B} (m : M A) (k : A → M B) : M B :=
  λ w, match m w with
       | (Ok a, w') => k a w'
       | (Err e, w') => (Err e, w')
       end.

Notation "x <- m ;; k" := (bind m (λ x, k))
  (at level 100, m at next level, right associativity).

Definition rbind {A B} (r : result A) (k : A → result B) : result B :=
  match r with Ok a => k a | Err e => Err e end.

Notation "x <~ r ;; k" := (rbind r (λ x, k))
  (at level 100, r at next level, right associativity).

(** *** [pathlib.Path] on entries of the base directory

    A path [base / name] is represented by [name]. *)
Module Path.

Definition present (name : string) (w : world) : bool :=
  bool_decide (is_Some (files w !! name)).

(** [Path.exists()], on a name the file system takes.  (A name it refuses,
    such as one longer than it allows, makes the real call raise; the
    properties that depend on the outcome assume that the call returned.) *)
Definition exists_ (name : string) : M bool :=
  λ w, (Ok (present name w), log (SysStat name) w).

Definition regular (e : entry) : bool :=
  match e with File _ => true | Dir => false end.

(** [Path.is_file()] *)
Definition is_file (name : string) : M bool :=
  λ w, (Ok (from_option regular false (files w !! name)),
        log (SysStat name) w).

(** [Path.write_bytes(data)]: create or truncate, then write.  The name is
    one the file system takes; otherwise the real call raises, and the
    properties about a [save] assume that it returned. *)
Definition write_bytes (name : string) (data : bytes) : M unit :=
  λ w, match files w !! name with
       | Some Dir => (Err (OSError "IsADirectoryError"), log (SysWrite name) w)
       | _ => (Ok tt, World (<[name := File data]> (files w))
                            (trace w ++ [SysWrite name]))
       end.

(** [Path.read_bytes()] *)
Definition read_bytes (name : string) : M bytes :=
  λ w, match files w !! name with
       | Some (File data) => (Ok data, log (SysRead name) w)
       | Some Dir => (Err (OSError "IsADirectoryError"), log (SysRead name) w)
       | None => (Err (OSError "FileNotFoundError"), log (SysRead name) w)
       end.

(** [Path.unlink()] *)
Definition unlink (name : string) : M unit :=
  λ w, match files w !! name with
       | Some (File _) => (Ok tt, World (base.delete name (files w))
                                        (trace w ++ [SysUnlink name]))
       | Some Dir => (Err (OSError "IsADirectoryError"), log (SysUnlink name) w)
       | None => (Err (OSError "FileNotFoundError"), log (SysUnlink name) w)
       end.

(** [Path.iterdir()]: the direct entries, in no particular order. *)
Definition iterdir : M (list string) :=
  λ w, (Ok ((map_to_list (files w)).*1), log SysScandir w).

(** [str.rfind]: the index of the last occurrence of [c]. *)
Fixpoint rfind (c : ascii) (s : string) : option nat :=
  match s with
  | EmptyString => None
  | String a s' =>
      match rfind c s' with
      | Some i => Some (S i)
      | None => if Ascii.eqb a c then Some 0 else None
      end
  end.

Fixpoint drop_chars (n : nat) (s : string) : string :=
  match n, s with
  | S n', String _ s' => drop_chars n' s'
  | _, _ => s
  end.

(** [PurePath.suffix]:
    [i = name.rfind('.')], then [name[i:]] if [0 < i < len(name) - 1]
    and the empty string otherwise. *)
Definition suffix (name : string) : string :=
  match rfind "." name with
  | Some i =>
      if ((0 <? i) && (i <? String.length name - 1))%nat
      then drop_chars i name
      else ""
  | None => ""
  end.

End Path.

(** A name that is one path component: it has no separator. *)
Definition single_component (s : string) : bool :=
  match Path.rfind "/" s with None => true | Some _ => false end.

(** ** [storage/serializers/base.py] *)

(** The abstract class [Serializer]: a format identifier and the two
    conversions.  A conversion that raises returns [Err]. *)
Record Serializer := {
  format : string;
  serialize : pyval → result bytes;
  deserialize : bytes → result pyval
}.

(** ** The library functions the serializers call *)

Record pylib := {
  (* builtins.repr, used by [str(x)] when [x] is not a [str] *)
  py_repr : pyval → string;
  (* dataclasses.asdict *)
  asdict : pyval → pyval;
  (* json.dumps(x, indent=2, ensure_ascii=False) *)
  json_dumps : pyval → result string;
  (* json.loads *)
  json_loads : string → result pyval;
  (* str.encode("utf-8") and bytes.decode("utf-8") *)
  encode_utf8 : string → bytes;
  decode_utf8 : bytes → result string;
  (* numpy.save into a BytesIO, then getvalue() *)
  np_save : pyval → result bytes;
  (* numpy.load from a BytesIO *)
  np_load : bytes → result pyval
}.

(** [str(x)] *)
Definition py_str (L : pylib) (x : pyval) : string :=
  match x with
  | PStr s => s
  | _ => py_repr L x
  end.

(** ** [storage/serializers/json_serializer.py] *)
Module JsonSerializer.

Definition has_key (k : string) (kv : pyval * pyval) : bool :=
  match kv.1 with
  | PStr s => String.eqb s k
  | _ => false
  end.

(** [d[k] = v] on a dict with [str] keys: an existing key keeps its
    position, a new key goes last. *)
Definition dict_setitem (d : list (pyval * pyval)) (k : string) (v : pyval)
  : list (pyval * pyval) :=
  if existsb (has_key k) d
  then (λ kv, if has_key k kv then (kv.1, v) else kv) <$> d
  else d ++ [(PStr k, v)].

(** The dict comprehension [{k: v for k, v in pairs}]. *)
Definition dict_of (pairs : list (string * pyval)) : pyval :=
  PDict (foldl (λ d kv, dict_setitem d kv.1 kv.2) [] pairs).

Section WithLibrary.
Variable L : pylib.

Fixpoint _to_json_compatible (value : pyval) : pyval :=
  match value with
  (* Handle None and primitives *)
  | PNone | PStr _ | PInt _ | PFloat _ | PBool _ => value
  (* Handle dataclasses *)
  | PDataclass _ => asdict L value
  (* Handle dictionaries *)
  | PDict items =>
      dict_of ((λ kv, (py_str L kv.1, _to_json_compatible kv.2)) <$> items)
  (* Handle lists and tuples *)
  | PList l | PTuple l => PList (_to_json_compatible <$> l)
  (* Handle objects with __dict__ *)
  | PObject attrs =>
      dict_of ((λ kv, (kv.1, _to_json_compatible kv.2)) <$> attrs)
  (* Last resort: convert to string *)
  | PArray _ | POther _ => PStr (py_str L value)
  end.

Definition serialize (value : pyval) : result bytes :=
  let json_data := _to_json_compatible value in
  text <~ json_dumps L json_data ;;
  Ok (encode_utf8 L text).

Definition deserialize (data : bytes) : result pyval :=
  text <~ decode_utf8 L data ;;
  json_loads L text.

Definition new : Serializer :=
  Build_Serializer "json" serialize deserialize.

End WithLibrary.
End JsonSerializer.

(** ** [storage/serializers/numpy_serializer.py] *)
Module NumpySerializer.
Section WithLibrary.
Variable L : pylib.

Definition serialize (value : pyval) : result bytes := np_save L value.

Definition deserialize (data : bytes) : result pyval := np_load L data.

Definition new : Serializer :=
  Build_Serializer "npy" serialize deserialize.

End WithLibrary.
End NumpySerializer.

(** ** [storage/serializers/registry.py] *)
Module SerializerRegistry.

Record t := Build { _format_map : gmap string Serializer }.

Definition __init__ : t := Build ∅.

Definition register (self : t) (serializer : Serializer) : t :=
  Build (<[format serializer := serializer]> (_format_map self)).

Definition get (self : t) (format : string) : result Serializer :=
  match _format_map self !! format with
  | None => Err (NoSerializerRegistered format)
  | Some serializer => Ok serializer
  end.

Definition supported_formats (self : t) : list string :=
  (map_to_list (_format_map self)).*1.

End SerializerRegistry.

(** ** [storage/local_file_storage.py] *)
Module LocalFileStorage.

Record t := Build {
  _base_path : string;
  _registry : SerializerRegistry.t
}.

Definition FORMAT_TO_EXTENSION : gmap string string :=
  {[ "json" := ".json"; "npy" := ".npy" ]}.

(** The constructor.  [mkdir(parents=True, exist_ok=True)] leaves the
    entries of an existing base directory as they are. *)
Definition __init__ (L : pylib) (base_path : string) : M t :=
  λ w,
    let registry := SerializerRegistry.__init__ in
    let registry := SerializerRegistry.register registry (NumpySerializer.new L) in
    let registry := SerializerRegistry.register registry (JsonSerializer.new L) in
    (Ok (Build base_path registry), log SysMkdir w).

Definition _get_extension (format : string) : result string :=
  match FORMAT_TO_EXTENSION !! format with
  | None => Err (UnknownFormat format)
  | Some extension => Ok extension
  end.

(** [self._base_path / f"{key}{extension}"], as a name in the base
    directory.  The name is the path itself when the key is a single path
    component; [pathlib] splits any other key at its separators. *)
Definition _build_path (self : t) (key format : string) : result string :=
  extension <~ _get_extension format ;;
  Ok (key +:+ extension).

Definition save (self : t) (key : string) (value : pyval) (format : string)
  : M unit :=
  serializer <- lift (SerializerRegistry.get (_registry self) format) ;;
  file_path <- lift (_build_path self key format) ;;
  data <- lift (serialize serializer value) ;;
  Path.write_bytes file_path data.

Definition get (self : t) (key format : string) : M pyval :=
  serializer <- lift (SerializerRegistry.get (_registry self) format) ;;
  file_path <- lift (_build_path self key format) ;;
  found <- Path.exists_ file_path ;;
  if negb found then raise (KeyNotFound key)
  else
    data <- Path.read_bytes file_path ;;
    lift (deserialize serializer data).

Definition exists_ (self : t) (key format : string) : M bool :=
  file_path <- lift (_build_path self key format) ;;
  Path.exists_ file_path.

(** [sum(1 for f in entries if f.is_file() and f.suffix in supported)] *)
Fixpoint sum_matching (supported : gset string) (entries : list string)
  : M nat :=
  match entries with
  | [] => ret 0
  | f :: rest =>
      regular <- Path.is_file f ;;
      n <- sum_matching supported rest ;;
      ret ((if regular && bool_decide (Path.suffix f ∈ supported)
            then 1 else 0) + n)
  end.

Definition count (self : t) : M nat :=
  let supported : gset string := map_img FORMAT_TO_EXTENSION in
  entries <- Path.iterdir ;;
  sum_matching supported entries.

Definition delete (self : t) (key format : string) : M bool :=
  file_path <- lift (_build_path self key format) ;;
  found <- Path.exists_ file_path ;;
  if negb found then ret false
  else
    _ <- Path.unlink file_path ;;
    ret true.

End LocalFileStorage.

(** ** A small instance of the library

    Enough of [json] and [numpy] to run the storage on concrete values:
    the JSON literals [null], [true], [false] and decimal integers, and
    one-dimensional arrays of unsigned bytes stored without a header. *)
Module SmallLib.

Definition dumps (x : pyval) : result string :=
  match x with
  | PNone => Ok "null"
  | PBool true => Ok "true"
  | PBool false => Ok "false"
  | PInt n => Ok (pretty n)
  | _ => Err (CodecError "TypeError")
  end.

Fixpoint digits (s : string) (acc : N) : option N :=
  match s with
  | EmptyString => Some acc
  | String c s' =>
      match Ascii.is_nat c with
      | Some d => digits s' (acc * 10 + N.of_nat d)%N
      | None => None
      end
  end.

Definition loads (s : string) : result pyval :=
  match s with
  | "null" => Ok PNone
  | "true" => Ok (PBool true)
  | "false" => Ok (PBool false)
  | EmptyString => Err (CodecError "JSONDecodeError")
  | String "-" s' =>
      match digits s' 0 with
      | Some n => Ok (PInt (- Z.of_N n))
      | None => Err (CodecError "JSONDecodeError")
      end
  | _ =>
      match digits s 0 with
      | Some n => Ok (PInt (Z.of_N n))
      | None => Err (CodecError "JSONDecodeError")
      end
  end.

Definition byte_of_Z (z : Z) : option byte := Byte.of_N (Z.to_N z).
Definition Z_of_byte (b : byte) : Z := Z.of_N (Byte.to_N b).

Definition save (x : pyval) : result bytes :=
  match x with
  | PArray (NdArray "uint8" [n] elts) =>
      match mapM byte_of_Z elts with
      | Some data => if bool_decide (length data = n) then Ok data
                     else Err (CodecError "ValueError")
      | None => Err (CodecError "ValueError")
      end
  | _ => Err (CodecError "ValueError")
  end.

Definition load (data : bytes) : result pyval :=
  Ok (PArray (NdArray "uint8" [length data] (Z_of_byte <$> data))).

Definition lib : pylib := {|
  py_repr := λ _, "<object>";
  asdict := λ x, match x with
                 | PDataclass fields => PDict (prod_map PStr id <$> fields)
                 | _ => x
                 end;
  json_dumps := dumps;
  json_loads := loads;
  encode_utf8 := list_byte_of_string;
  decode_utf8 := λ data, Ok (string_of_list_byte data);
  np_save := save;
  np_load := load
|}.

End SmallLib.

(** The storage of the package's examples and an empty base directory. *)
Definition empty_dir : world := World ∅ [].

Definition my_storage : LocalFileStorage.t :=
  LocalFileStorage.Build "./my_storage"
    (SerializerRegistry.register
       (SerializerRegistry.register SerializerRegistry.__init__
          (NumpySerializer.new SmallLib.lib))
       (JsonSerializer.new SmallLib.lib)).

Import LocalFileStorage (FORMAT_TO_EXTENSION, _registry, _base_path).
Import SerializerRegistry (_format_map).

(** ** Vocabulary of the properties *)

(** An entry that [count] counts: a regular file whose suffix is a value of
    the extension table. *)
Definition counted (ne : string * entry) : Prop :=
  Path.regular ne.2 ∧ Path.suffix ne.1 ∈ (map_img FORMAT_TO_EXTENSION : gset string).

Global Instance counted_dec ne : Decision (counted ne).
Proof. unfold counted. apply _. Defined.

(** A hidden file: its name begins with a dot. *)
Definition hidden (name : string) : bool :=
  match name with String "." _ => true | _ => false end.

(** A serializer is faithful on a value when it encodes the value and
    decodes the encoding to the same value: the same JSON-compatible
    structure, or the same dtype, shape and elements. *)
Definition faithful_on (s : Serializer) (x : pyval) : Prop :=
  ∃ data, serialize s x = Ok data ∧ deserialize s data = Ok x.

Definition str_key (kv : pyval * pyval) : option string :=
  match kv.1 with PStr s => Some s | _ => None end.

(** The JSON-compatible values: [None], booleans, numbers, strings, lists
    of such values and dicts from strings to such values. *)
Fixpoint json_value (x : pyval) : bool :=
  match x with
  | PNone | PBool _ | PInt _ | PFloat _ | PStr _ => true
  | PList l => forallb json_value l
  | PDict items =>
      match mapM str_key items with
      | Some ks => bool_decide (NoDup ks) && forallb (λ kv, json_value kv.2) items
      | None => false
      end
  | _ => false
  end.

(** What the properties ask of the [json] and [numpy] modules. *)
Definition json_roundtrip (L : pylib) (x : pyval) : Prop :=
  ∃ text, json_dumps L x = Ok text
          ∧ decode_utf8 L (encode_utf8 L text) = Ok text
          ∧ json_loads L text = Ok x.

Definition numpy_roundtrip (L : pylib) (x : pyval) : Prop :=
  ∃ data, np_save L x = Ok data ∧ np_load L data = Ok x.

(** The values a format of the built-in registry stores and returns
    unchanged: under ["json"] a JSON-compatible value that the [json]
    module prints and reads back, under ["npy"] a value that [numpy] saves
    and loads back. *)
Definition storable (L : pylib) (fmt : string) (x : pyval) : Prop :=
  (fmt = "json" ∧ json_value x ∧ json_roundtrip L x)
  ∨ (fmt = "npy" ∧ numpy_roundtrip L x).

(** Induction on values, with the hypothesis for every component. *)
Section PyvalInduction.
Variable P : pyval → Prop.
Hypothesis Hnone : P PNone.
Hypothesis Hbool : ∀ b, P (PBool b).
Hypothesis Hint : ∀ n, P (PInt n).
Hypothesis Hfloat : ∀ bits, P (PFloat bits).
Hypothesis Hstr : ∀ s, P (PStr s).
Hypothesis Hdataclass : ∀ fields, Forall (λ kv, P kv.2) fields → P (PDataclass fields).
Hypothesis Hdict : ∀ items, Forall (λ kv, P kv.1 ∧ P kv.2) items → P (PDict items).
Hypothesis Hlist : ∀ l, Forall P l → P (PList l).
Hypothesis Htuple : ∀ l, Forall P l → P (PTuple l).
Hypothesis Hobject : ∀ attrs, Forall (λ kv, P kv.2) attrs → P (PObject attrs).
Hypothesis Harray : ∀ a, P (PArray a).
Hypothesis Hother : ∀ descr, P (POther descr).

Fixpoint pyval_nested_ind (x : pyval) : P x :=
  match x with
  | PNone => Hnone
  | PBool b => Hbool b
  | PInt n => Hint n
  | PFloat bits => Hfloat bits
  | PStr s => Hstr s
  | PDataclass fields =>
      Hdataclass fields
        ((fix go (l : list (string * pyval)) : Forall (λ kv, P kv.2) l :=
            match l with
            | [] => List.Forall_nil _
            | kv :: l' => List.Forall_cons _ kv l' (pyval_nested_ind kv.2) (go l')
            end) fields)
  | PDict items =>
      Hdict items
        ((fix go (l : list (pyval * pyval)) : Forall (λ kv, P kv.1 ∧ P kv.2) l :=
            match l with
            | [] => List.Forall_nil _
            | kv :: l' =>
                List.Forall_cons _ kv l'
                  (conj (pyval_nested_ind kv.1) (pyval_nested_ind kv.2)) (go l')
            end) items)
  | PList l =>
      Hlist l
        ((fix go (l : list pyval) : Forall P l :=
            match l with
            | [] => List.Forall_nil _
            | y :: l' => List.Forall_cons _ y l' (pyval_nested_ind y) (go l')
            end) l)
  | PTuple l =>
      Htuple l
        ((fix go (l : list pyval) : Forall P l :=
            match l with
            | [] => List.Forall_nil _
            | y :: l' => List.Forall_cons _ y l' (pyval_nested_ind y) (go l')
            end) l)
  | PObject attrs =>
      Hobject attrs
        ((fix go (l : list (string * pyval)) : Forall (λ kv, P kv.2) l :=
            match l with
            | [] => List.Forall_nil _
            | kv :: l' => List.Forall_cons _ kv l' (pyval_nested_ind kv.2) (go l')
            end) attrs)
  | PArray a => Harray a
  | POther descr => Hother descr
  end.
End PyvalInduction.

(** *** Histories of calls *)









(** *** Vocabulary of the further properties *)

(** A value in which [_to_json_compatible] meets no dataclass instance on
    its way through dict values, list and tuple items and attribute
    values. *)
Fixpoint dataclass_free (x : pyval) : bool :=
  match x with
  | PDataclass _ => false
  | PDict items => forallb (λ kv, dataclass_free kv.2) items
  | PList l | PTuple l => forallb dataclass_free l
  | PObject attrs => forallb (λ kv, dataclass_free kv.2) attrs
  | _ => true
  end.

(** [d.get(k)] on the items of a dict, for a [str] key. *)
Fixpoint dict_lookup (d : list (pyval * pyval)) (k : string) : option pyval :=
  match d with
  | [] => None
  | kv :: d' => if JsonSerializer.has_key k kv then Some kv.2 else dict_lookup d' k
  end.

(** The value of the last pair with key [k]. *)
Definition last_binding (k : string) (pairs : list (string * pyval))
  : option pyval :=
  snd <$> last (filter (λ kv, kv.1 = k) pairs).

(** The dict an object with the given [__dict__] is stored as. *)
Definition attrs_dict (attrs : list (string * pyval)) : pyval :=
  PDict (prod_map PStr id <$> attrs).

(** A file-system call that changes nothing on disk. *)
Definition read_only_call (c : syscall) : bool :=
  match c with
  | SysStat _ | SysRead _ | SysScandir => true
  | SysWrite _ | SysUnlink _ | SysMkdir => false
  end.

(** * Properties *)


(** ** Running the operations *)

Ltac unfold_ops :=
  unfold LocalFileStorage.save, LocalFileStorage.get, LocalFileStorage.exists_,
    LocalFileStorage.delete, LocalFileStorage._build_path,
    LocalFileStorage._get_extension, SerializerRegistry.get,
    Path.exists_, Path.write_bytes, Path.read_bytes, Path.unlink, Path.present,
    bind, lift, ret, raise, rbind, log in *.

Section RegistryFacts.
Implicit Types (r : SerializerRegistry.t) (s : Serializer).

Lemma get_register r s :
  SerializerRegistry.get (SerializerRegistry.register r s) (format s) = Ok s.
Proof.
  unfold SerializerRegistry.get, SerializerRegistry.register; simpl.
  by rewrite lookup_insert_eq.
Qed.

Lemma get_register_ne r s f :
  f ≠ format s →
  SerializerRegistry.get (SerializerRegistry.register r s) f
  = SerializerRegistry.get r f.
Proof.
  intros Hne. unfold SerializerRegistry.get, SerializerRegistry.register; simpl.
  by rewrite lookup_insert_ne.
Qed.

Lemma register_twice r s1 s2 :
  format s1 = format s2 →
  SerializerRegistry.register (SerializerRegistry.register r s1) s2
  = SerializerRegistry.register r s2.
Proof.
  intros Heq. unfold SerializerRegistry.register; simpl.
  by rewrite Heq, insert_insert_eq.
Qed.

End RegistryFacts.

(** The extension table has exactly two rows. *)
Lemma extension_cases f ext :
  FORMAT_TO_EXTENSION !! f = Some ext ↔
  (f = "json" ∧ ext = ".json") ∨ (f = "npy" ∧ ext = ".npy").
Proof.
  unfold FORMAT_TO_EXTENSION.
  rewrite lookup_insert_Some, lookup_singleton_Some.
  naive_solver.
Qed.

Lemma supported_suffixes x :
  x ∈ (map_img FORMAT_TO_EXTENSION : gset string) ↔ x = ".json" ∨ x = ".npy".
Proof.
  rewrite elem_of_map_img. setoid_rewrite extension_cases. naive_solver.
Qed.

(** C9.  [register] is total and the last registration for a format wins:
    after registering [s1] and then [s2] with the same format identifier,
    [get] on that format returns [s2]; the registry is then the one obtained
    by registering [s2] alone, and registering one serializer twice is the
    same as registering it once. *)
Theorem register_last_wins (r : SerializerRegistry.t) (s1 s2 : Serializer) :
  format s1 = format s2 →
  SerializerRegistry.get
    (SerializerRegistry.register (SerializerRegistry.register r s1) s2)
    (format s1) = Ok s2
  ∧ SerializerRegistry.register (SerializerRegistry.register r s1) s2
    = SerializerRegistry.register r s2
  ∧ SerializerRegistry.register (SerializerRegistry.register r s1) s1
    = SerializerRegistry.register r s1
  ∧ SerializerRegistry.get (SerializerRegistry.register r s1) (format s1)
    = Ok s1.
Proof.
  intros Heq. repeat split.
  - rewrite Heq. apply get_register.
  - by apply register_twice.
  - by apply register_twice.
  - apply get_register.
Qed.

Lemma register_last_wins_witness :
  let s1 := Build_Serializer "json" (λ _, Ok []) (λ _, Ok PNone) in
  let s2 := JsonSerializer.new SmallLib.lib in
  SerializerRegistry.get
    (SerializerRegistry.register
       (SerializerRegistry.register SerializerRegistry.__init__ s1) s2)
    "json" = Ok s2.
Proof.
  intros s1 s2.
  exact (proj1 (register_last_wins SerializerRegistry.__init__ s1 s2 eq_refl)).
Defined.

(** C2.  [save] with a format that has no registered serializer raises the
    registry's [KeyError], of kind [UnsupportedFormat], and returns the
    world it was given: no entry is created or changed and no file-system
    call is made. *)
Theorem save_unregistered_format
    (self : LocalFileStorage.t) (key : string) (value : pyval)
    (fmt : string) (w : world) :
  _format_map (_registry self) !! fmt = None →
  LocalFileStorage.save self key value fmt w
  = (Err (NoSerializerRegistered fmt), w)
  ∧ kind_of (NoSerializerRegistered fmt) = UnsupportedFormat.
Proof.
  intros Hnone. split; [|done].
  unfold_ops. by rewrite Hnone.
Qed.

Lemma save_unregistered_format_witness :
  LocalFileStorage.save my_storage "k" (PInt 1) "xml" empty_dir
  = (Err (NoSerializerRegistered "xml"), empty_dir).
Proof.
  apply (save_unregistered_format my_storage "k" (PInt 1) "xml" empty_dir).
  vm_compute. reflexivity.
Defined.

(** C5.  For a format without an entry in the extension table, [exists]
    and [delete] raise the [KeyError] of [_get_extension], of kind
    [UnsupportedFormat], and return the world they were given: the lookup
    in [_build_path] fails before any file-system call. *)
Theorem exists_delete_unknown_extension
    (self : LocalFileStorage.t) (key fmt : string) (w : world) :
  FORMAT_TO_EXTENSION !! fmt = None →
  LocalFileStorage.exists_ self key fmt w = (Err (UnknownFormat fmt), w)
  ∧ LocalFileStorage.delete self key fmt w = (Err (UnknownFormat fmt), w)
  ∧ kind_of (UnknownFormat fmt) = UnsupportedFormat.
Proof.
  intros Hnone. repeat split; unfold_ops; by rewrite Hnone.
Qed.

Lemma exists_delete_unknown_extension_witness :
  let w := World {[ "k.xml" := File [] ]} [] in
  LocalFileStorage.exists_ my_storage "k" "xml" w = (Err (UnknownFormat "xml"), w)
  ∧ LocalFileStorage.delete my_storage "k" "xml" w = (Err (UnknownFormat "xml"), w).
Proof.
  intros w.
  destruct (exists_delete_unknown_extension my_storage "k" "xml" w) as (H1 & H2 & _).
  - vm_compute. reflexivity.
  - split; [exact H1 | exact H2].
Defined.

(** C6.  [get] looks the serializer up first.  With no serializer
    registered for the format it raises the registry's [KeyError], of kind
    [UnsupportedFormat], without a file-system call, whatever the base
    directory holds, in particular when the backing file is there.  With a
    registered serializer, when [exists] returns [False] for the pair,
    it raises [KeyError("Key not found")], of kind [NotFound], and leaves
    the entries as they are. *)
Theorem get_error_order
    (self : LocalFileStorage.t) (key fmt : string) (w : world) :
  (_format_map (_registry self) !! fmt = None →
   LocalFileStorage.get self key fmt w = (Err (NoSerializerRegistered fmt), w)
   ∧ kind_of (NoSerializerRegistered fmt) = UnsupportedFormat)
  ∧ (∀ s,
       _format_map (_registry self) !! fmt = Some s →
       (LocalFileStorage.exists_ self key fmt w).1 = Ok false →
       (LocalFileStorage.get self key fmt w).1 = Err (KeyNotFound key)
       ∧ files (LocalFileStorage.get self key fmt w).2 = files w
       ∧ kind_of (KeyNotFound key) = NotFound).
Proof.
  split.
  - intros Hnone. split; [|done]. unfold_ops. by rewrite Hnone.
  - intros s Hs Hex. unfold_ops. rewrite Hs.
    destruct (FORMAT_TO_EXTENSION !! fmt) as [ext|]; simpl in *; [|done].
    injection Hex as Hex. by rewrite Hex.
Qed.

Lemma get_error_order_witness :
  let w := World {[ "k.xml" := File [] ]} [] in
  LocalFileStorage.get my_storage "k" "xml" w = (Err (NoSerializerRegistered "xml"), w)
  ∧ (LocalFileStorage.get my_storage "k" "json" w).1 = Err (KeyNotFound "k").
Proof.
  intros w.
  destruct (get_error_order my_storage "k" "xml" w) as [H1 _].
  destruct (get_error_order my_storage "k" "json" w) as [_ H2].
  split.
  - apply H1. vm_compute. reflexivity.
  - apply (H2 (JsonSerializer.new SmallLib.lib)); vm_compute; reflexivity.
Defined.

(** ** [exists] and [delete] *)

Lemma exists_known (self : LocalFileStorage.t) key fmt ext w :
  FORMAT_TO_EXTENSION !! fmt = Some ext →
  LocalFileStorage.exists_ self key fmt w
  = (Ok (bool_decide (is_Some (files w !! (key +:+ ext)))),
     log (SysStat (key +:+ ext)) w).
Proof. intros Hext. unfold_ops. by rewrite Hext. Qed.

Lemma delete_present (self : LocalFileStorage.t) key fmt ext data w :
  FORMAT_TO_EXTENSION !! fmt = Some ext →
  files w !! (key +:+ ext) = Some (File data) →
  LocalFileStorage.delete self key fmt w
  = (Ok true,
     World (base.delete (key +:+ ext) (files w))
           (trace w ++ [SysStat (key +:+ ext); SysUnlink (key +:+ ext)])).
Proof.
  intros Hext Hfile. unfold_ops. rewrite Hext; simpl. rewrite Hfile.
  rewrite bool_decide_eq_true_2 by eauto. simpl. rewrite Hfile.
  by rewrite <- app_assoc.
Qed.

Lemma delete_absent (self : LocalFileStorage.t) key fmt ext w :
  FORMAT_TO_EXTENSION !! fmt = Some ext →
  files w !! (key +:+ ext) = None →
  LocalFileStorage.delete self key fmt w
  = (Ok false, log (SysStat (key +:+ ext)) w).
Proof.
  intros Hext Hfile. unfold_ops. rewrite Hext; simpl. rewrite Hfile.
  rewrite bool_decide_eq_false_2 by (by intros [? ?]). done.
Qed.

(** C7.  When the file of (key, format) is there, the first [delete]
    returns [True], a second one right after returns [False], and [exists]
    returns [False] after the first and after the second call.  On an
    absent object [delete] returns [False] and does not raise. *)
Theorem delete_twice
    (self : LocalFileStorage.t) (key fmt ext : string) (data : bytes)
    (w : world) :
  FORMAT_TO_EXTENSION !! fmt = Some ext →
  files w !! (key +:+ ext) = Some (File data) →
  let (r1, w1) := LocalFileStorage.delete self key fmt w in
  let (r2, w2) := LocalFileStorage.delete self key fmt w1 in
  r1 = Ok true ∧ r2 = Ok false
  ∧ (LocalFileStorage.exists_ self key fmt w1).1 = Ok false
  ∧ (LocalFileStorage.exists_ self key fmt w2).1 = Ok false
  ∧ (∀ w0, files w0 !! (key +:+ ext) = None →
           (LocalFileStorage.delete self key fmt w0).1 = Ok false).
Proof.
  intros Hext Hfile.
  rewrite (delete_present _ _ _ _ _ _ Hext Hfile).
  set (w1 := World _ _).
  assert (Hgone : files w1 !! (key +:+ ext) = None) by apply lookup_delete_eq.
  rewrite (delete_absent _ _ _ _ _ Hext Hgone).
  rewrite !(exists_known _ _ _ _ _ Hext); simpl.
  rewrite lookup_delete_eq.
  split_and!; try done.
  intros w0 Hw0. by rewrite (delete_absent _ _ _ _ _ Hext Hw0).
Qed.

Lemma delete_twice_witness :
  let w := World {[ "0.json" := File [] ]} [] in
  let (r1, w1) := LocalFileStorage.delete my_storage "0" "json" w in
  let (r2, w2) := LocalFileStorage.delete my_storage "0" "json" w1 in
  r1 = Ok true ∧ r2 = Ok false.
Proof.
  intros w.
  pose proof (delete_twice my_storage "0" "json" ".json" [] w eq_refl eq_refl) as H.
  destruct (LocalFileStorage.delete my_storage "0" "json" w) as [r1 w1].
  destruct (LocalFileStorage.delete my_storage "0" "json" w1) as [r2 w2].
  destruct H as (H1 & H2 & _). split; [exact H1 | exact H2].
Defined.



(** ** File names *)

Section Names.
Implicit Types (k e s : string) (c : ascii).

Lemma to_list_app s1 s2 :
  list_ascii_of_string (s1 +:+ s2)
  = (list_ascii_of_string s1 ++ list_ascii_of_string s2)%list.
Proof. induction s1 as [|a s1 IH]; simpl; [done | by rewrite IH]. Qed.

Lemma to_list_inj s1 s2 :
  list_ascii_of_string s1 = list_ascii_of_string s2 → s1 = s2.
Proof.
  intros Heq.
  rewrite <- (string_of_list_ascii_of_string s1),
          <- (string_of_list_ascii_of_string s2).
  by rewrite Heq.
Qed.

Lemma app_inj_same_length k1 k2 e1 e2 :
  String.length e1 = String.length e2 →
  k1 +:+ e1 = k2 +:+ e2 → k1 = k2 ∧ e1 = e2.
Proof.
  intros Hlen Heq.
  apply (f_equal list_ascii_of_string) in Heq. rewrite !to_list_app in Heq.
  apply app_inj_2 in Heq as [H1 H2].
  - split; by apply to_list_inj.
  - clear Heq. revert e2 Hlen.
    induction e1 as [|a e1 IH]; intros [|b e2]; simpl; try done.
    intros [= Hlen]. by rewrite (IH e2).
Qed.

Lemma json_npy_apart k1 k2 : k1 +:+ ".json" ≠ k2 +:+ ".npy".
Proof.
  intros Heq.
  change (k1 +:+ ".json") with (k1 +:+ ("." +:+ "json")) in Heq.
  apply (f_equal list_ascii_of_string) in Heq.
  rewrite !to_list_app, app_assoc in Heq.
  by apply app_inj_2 in Heq as [_ [=]].
Qed.

(** Two pairs with the same file name are the same pair. *)
Lemma name_inj k1 f1 e1 k2 f2 e2 :
  FORMAT_TO_EXTENSION !! f1 = Some e1 →
  FORMAT_TO_EXTENSION !! f2 = Some e2 →
  k1 +:+ e1 = k2 +:+ e2 →
  k1 = k2 ∧ f1 = f2.
Proof.
  rewrite !extension_cases.
  intros [[-> ->]|[-> ->]] [[-> ->]|[-> ->]] Heq.
  - by apply app_inj_same_length in Heq as [-> _].
  - by apply json_npy_apart in Heq.
  - symmetry in Heq. by apply json_npy_apart in Heq.
  - by apply app_inj_same_length in Heq as [-> _].
Qed.

Lemma length_app s1 s2 :
  String.length (s1 +:+ s2) = (String.length s1 + String.length s2)%nat.
Proof. induction s1; simpl; [done | by f_equal]. Qed.

Lemma rfind_dot_app k rest :
  Path.rfind "." rest = None →
  Path.rfind "." (k +:+ String "." rest) = Some (String.length k).
Proof.
  intros Hrest. induction k as [|a k IH]; simpl.
  - by rewrite Hrest.
  - change (match k +:+ String "." rest with
            | EmptyString => None | String a0 s' => _ end)
      with (Path.rfind "." (k +:+ String "." rest)).
    by rewrite IH.
Qed.

Lemma drop_chars_app k e : Path.drop_chars (String.length k) (k +:+ e) = e.
Proof. induction k as [|a k IH]; simpl; [by destruct e | done]. Qed.

(** The suffix of [key + extension] is the extension, unless the key is
    empty. *)
Lemma suffix_app k c rest :
  k ≠ "" → Path.rfind "." (String c rest) = None →
  Path.suffix (k +:+ String "." (String c rest)) = String "." (String c rest).
Proof.
  intros Hk Hrest. unfold Path.suffix.
  rewrite rfind_dot_app by done. rewrite length_app; simpl String.length.
  destruct k as [|a k]; [done|]. simpl String.length.
  replace (0 <? S (String.length k))%nat with true
    by (symmetry; apply Nat.ltb_lt; lia).
  replace (S (String.length k) <?
           S (String.length k) + S (S (String.length rest)) - 1)%nat
    with true by (symmetry; apply Nat.ltb_lt; lia).
  simpl andb. cbv iota.
  apply (drop_chars_app (String a k)).
Qed.

Lemma suffix_of_stored k f e :
  k ≠ "" → FORMAT_TO_EXTENSION !! f = Some e → Path.suffix (k +:+ e) = e.
Proof.
  intros Hk [[-> ->]|[-> ->]]%extension_cases; by apply suffix_app.
Qed.

Lemma suffix_empty_key e : Path.rfind "." e = Some 0%nat → Path.suffix e = "".
Proof. unfold Path.suffix. by intros ->. Qed.

End Names.

(** ** Counting *)

Section Counting.
Implicit Types (fs : gmap string entry) (w : world).

Local Abbreviation supported := (map_img FORMAT_TO_EXTENSION : gset string).

Lemma sum_matching_run (names : list string) w :
  LocalFileStorage.sum_matching supported names w
  = (Ok (length (filter
                   (λ f, from_option Path.regular false (files w !! f)
                         ∧ Path.suffix f ∈ supported) names)),
     World (files w) (trace w ++ (SysStat <$> names))).
Proof.
  revert w. induction names as [|f names IH]; intros w.
  - simpl. unfold ret. rewrite app_nil_r. by destruct w.
  - simpl. unfold bind at 1. unfold Path.is_file at 1.
    unfold bind at 1. rewrite IH. unfold log; simpl.
    rewrite <- app_assoc; simpl. unfold ret. f_equal. f_equal.
    rewrite filter_cons.
    destruct (decide (Path.suffix f ∈ supported)) as [Hs|Hs];
      destruct (from_option Path.regular false (files w !! f)); simpl.
    + rewrite (bool_decide_eq_true_2 _ Hs).
      rewrite decide_True by (split; [exact I | exact Hs]). reflexivity.
    + reflexivity.
    + rewrite (bool_decide_eq_false_2 _ Hs).
      rewrite decide_False by (intros [_ ?]; contradiction). reflexivity.
    + reflexivity.
Qed.

Lemma filter_names fs (l : list (string * entry)) :
  Forall (λ ne, fs !! ne.1 = Some ne.2) l →
  length (filter (λ f, from_option Path.regular false (fs !! f)
                       ∧ Path.suffix f ∈ supported) l.*1)
  = length (filter counted l).
Proof.
  induction 1 as [|[n e] l Hne _ IH]; [done|].
  simpl in Hne. rewrite fmap_cons, !filter_cons; simpl. rewrite Hne; simpl.
  destruct (decide (counted (n, e))) as [Hc|Hc].
  - rewrite decide_True by exact Hc. simpl. by rewrite IH.
  - rewrite decide_False by exact Hc. exact IH.
Qed.

Lemma length_filter_map_to_list fs :
  length (filter counted (map_to_list fs)) = size (filter counted fs).
Proof.
  induction fs as [|n e fs Hn IH] using map_ind.
  - by rewrite map_to_list_empty, map_filter_empty, map_size_empty.
  - rewrite map_to_list_insert by done. rewrite filter_cons.
    destruct (decide (counted (n, e))) as [Hc|Hc].
    + rewrite map_filter_insert_True by done.
      rewrite map_size_insert_None
        by (apply map_lookup_filter_None; by left).
      simpl. by rewrite IH.
    + rewrite map_filter_insert_not'; [done..|].
      intros y Hy. by rewrite Hn in Hy.
Qed.

(** [count] returns the number of counted entries and changes no entry. *)
Lemma count_run (self : LocalFileStorage.t) w :
  (LocalFileStorage.count self w).1 = Ok (size (filter counted (files w)))
  ∧ files (LocalFileStorage.count self w).2 = files w.
Proof.
  unfold LocalFileStorage.count, bind, Path.iterdir.
  rewrite sum_matching_run; simpl. split; [|done].
  f_equal. rewrite filter_names; [apply length_filter_map_to_list|].
  apply Forall_forall. intros [n e] Hin; simpl.
  by apply elem_of_map_to_list.
Qed.


Lemma counted_insert_new fs n e :
  fs !! n = None → counted (n, e) →
  size (filter counted (<[n := e]> fs)) = S (size (filter counted fs)).
Proof.
  intros Hn Hc. rewrite map_filter_insert_True by done.
  apply map_size_insert_None, map_lookup_filter_None. by left.
Qed.

Lemma counted_insert_skip fs n e :
  fs !! n = None → ¬ counted (n, e) →
  size (filter counted (<[n := e]> fs)) = size (filter counted fs).
Proof.
  intros Hn Hc. rewrite map_filter_insert_not'; [done..|].
  intros y Hy. by rewrite Hn in Hy.
Qed.

Lemma counted_overwrite fs n e e' :
  fs !! n = Some e → counted (n, e) → counted (n, e') →
  size (filter counted (<[n := e']> fs)) = size (filter counted fs).
Proof.
  intros Hn Hc Hc'. rewrite map_filter_insert_True by done.
  apply map_size_insert_Some. exists e. by apply map_lookup_filter_Some.
Qed.

Lemma counted_delete fs n e :
  fs !! n = Some e → counted (n, e) →
  S (size (filter counted (base.delete n fs))) = size (filter counted fs).
Proof.
  intros Hn Hc. rewrite map_filter_delete.
  assert (Hin : filter counted fs !! n = Some e)
    by by apply map_lookup_filter_Some.
  rewrite map_size_delete_Some by eauto.
  assert (size (filter counted fs) ≠ 0%nat); [|lia].
  intros Hz%map_size_empty_inv. by rewrite Hz, lookup_empty in Hin.
Qed.

End Counting.

(** ** What each operation does to the entries *)

Section Effects.
Variable self : LocalFileStorage.t.
Implicit Types (w : world) (key fmt : string).

Lemma save_outcome key value fmt w :
  (∃ s ext data,
      _format_map (_registry self) !! fmt = Some s
      ∧ FORMAT_TO_EXTENSION !! fmt = Some ext
      ∧ serialize s value = Ok data
      ∧ files w !! (key +:+ ext) ≠ Some Dir
      ∧ LocalFileStorage.save self key value fmt w
        = (Ok tt, World (<[key +:+ ext := File data]> (files w))
                        (trace w ++ [SysWrite (key +:+ ext)])))
  ∨ (∃ e, (LocalFileStorage.save self key value fmt w).1 = Err e
          ∧ files (LocalFileStorage.save self key value fmt w).2 = files w).
Proof.
  unfold_ops.
  destruct (_format_map (_registry self) !! fmt) as [s|] eqn:Hs; [|right; eauto].
  destruct (FORMAT_TO_EXTENSION !! fmt) as [ext|] eqn:Hext; simpl; [|right; eauto].
  destruct (serialize s value) as [data|e] eqn:Hser; [|right; eauto].
  destruct (files w !! (key +:+ ext)) as [[d|]|] eqn:Hfile.
  - left. exists s, ext, data. by rewrite Hfile.
  - right. eauto.
  - left. exists s, ext, data. by rewrite Hfile.
Qed.

Lemma delete_outcome key fmt w :
  (∃ ext data,
      FORMAT_TO_EXTENSION !! fmt = Some ext
      ∧ files w !! (key +:+ ext) = Some (File data)
      ∧ (LocalFileStorage.delete self key fmt w).1 = Ok true
      ∧ files (LocalFileStorage.delete self key fmt w).2
        = base.delete (key +:+ ext) (files w))
  ∨ (∃ ext,
      FORMAT_TO_EXTENSION !! fmt = Some ext
      ∧ files w !! (key +:+ ext) = None
      ∧ (LocalFileStorage.delete self key fmt w).1 = Ok false
      ∧ files (LocalFileStorage.delete self key fmt w).2 = files w)
  ∨ (∃ e, (LocalFileStorage.delete self key fmt w).1 = Err e
          ∧ files (LocalFileStorage.delete self key fmt w).2 = files w).
Proof.
  destruct (FORMAT_TO_EXTENSION !! fmt) as [ext|] eqn:Hext.
  - destruct (files w !! (key +:+ ext)) as [[d|]|] eqn:Hfile.
    + left. exists ext, d. by rewrite (delete_present _ _ _ _ _ _ Hext Hfile).
    + right; right. unfold_ops. rewrite Hext; simpl. rewrite Hfile.
      rewrite bool_decide_eq_true_2 by eauto. simpl. rewrite Hfile. eauto.
    + right; left. exists ext. by rewrite (delete_absent _ _ _ _ _ Hext Hfile).
  - right; right. unfold_ops. rewrite Hext. eauto.
Qed.

Lemma get_keeps_files key fmt w :
  files (LocalFileStorage.get self key fmt w).2 = files w.
Proof.
  unfold_ops.
  destruct (_format_map (_registry self) !! fmt) as [s|]; [|done].
  destruct (FORMAT_TO_EXTENSION !! fmt) as [ext|]; simpl; [|done].
  destruct (bool_decide _); simpl; [|done].
  by destruct (files w !! (key +:+ ext)) as [[d|]|].
Qed.

Lemma exists_keeps_files key fmt w :
  files (LocalFileStorage.exists_ self key fmt w).2 = files w.
Proof.
  unfold_ops. by destruct (FORMAT_TO_EXTENSION !! fmt).
Qed.

Lemma build_path_known key fmt p :
  LocalFileStorage._build_path self key fmt = Ok p →
  ∃ ext, FORMAT_TO_EXTENSION !! fmt = Some ext ∧ p = key +:+ ext.
Proof.
  unfold_ops. destruct (FORMAT_TO_EXTENSION !! fmt) as [ext|]; [|done].
  intros [= <-]. eauto.
Qed.

End Effects.

(** C10.  For keys without a path separator the file name determines the
    pair: two pairs that [_build_path] sends to one name are equal (so
    [k1 + ".json"] never equals [k2 + ".npy"]).  Hence [save] and [delete]
    on one pair leave the entry of every other pair as it was. *)
Theorem other_pairs_untouched
    (self : LocalFileStorage.t) (k k' f f' : string) (w : world) :
  single_component k → single_component k' →
  (∀ p, LocalFileStorage._build_path self k f = Ok p →
        LocalFileStorage._build_path self k' f' = Ok p →
        (k, f) = (k', f'))
  ∧ k +:+ ".json" ≠ k' +:+ ".npy"
  ∧ ((k', f') ≠ (k, f) →
     ∀ p', LocalFileStorage._build_path self k' f' = Ok p' →
       (∀ v, files (LocalFileStorage.save self k v f w).2 !! p' = files w !! p')
       ∧ files (LocalFileStorage.delete self k f w).2 !! p' = files w !! p').
Proof.
  intros _ _.
  assert (Hinj : ∀ p, LocalFileStorage._build_path self k f = Ok p →
                      LocalFileStorage._build_path self k' f' = Ok p →
                      (k, f) = (k', f')).
  { intros p (e & He & ->)%build_path_known (e' & He' & Heq)%build_path_known.
    destruct (name_inj _ _ _ _ _ _ He He' Heq) as [-> ->]. done. }
  split; [exact Hinj|]. split; [apply json_npy_apart|].
  intros Hne p' Hp'.
  assert (Hother : ∀ ext, FORMAT_TO_EXTENSION !! f = Some ext → k +:+ ext ≠ p').
  { intros ext Hext Heq. apply Hne. symmetry. apply (Hinj p'); [|done].
    unfold_ops. rewrite Hext. simpl. by rewrite Heq. }
  split.
  - intros v.
    destruct (save_outcome self k v f w)
      as [(s & ext & data & _ & Hext & _ & _ & ->)|(e & _ & ->)]; [|done].
    simpl. rewrite lookup_insert_ne; [done|]. by apply Hother.
  - destruct (delete_outcome self k f w)
      as [(ext & data & Hext & _ & _ & ->)|[(ext & _ & _ & _ & ->)|(e & _ & ->)]];
      [|done..].
    rewrite lookup_delete_ne; [done|]. by apply Hother.
Qed.

Lemma other_pairs_untouched_witness :
  let w := World {[ "a.json" := File []; "a.npy" := File [] ]} [] in
  files (LocalFileStorage.delete my_storage "a" "json" w).2 !! "a.npy"
  = files w !! "a.npy".
Proof.
  intros w.
  destruct (other_pairs_untouched my_storage "a" "a" "json" "npy" w)
    as (_ & _ & H); [exact I..|].
  destruct (H ltac:(discriminate) "a.npy" eq_refl) as [_ Hd]. exact Hd.
Defined.

(** ** What [count] counts *)

(** C4, as stated: hidden files are left out of the count.  The code has no
    test on the first character of a name: with the single entry
    [.a.json], a regular file, [count] returns 1. *)
Lemma hidden_file_is_counted :
  ¬ (∀ (self : LocalFileStorage.t) (w : world),
       (LocalFileStorage.count self w).1
       = Ok (size (filter (λ ne, counted ne ∧ hidden ne.1 = false) (files w)))).
Proof.
  intros H.
  specialize (H my_storage (World {[ ".a.json" := File [] ]} [])).
  vm_compute in H. discriminate H.
Qed.

(** C4, amended.  [count] returns the number of direct entries of the base
    directory that are regular files with suffix [.json] or [.npy], the
    suffix being the one [pathlib] computes.  Adding a subdirectory or a
    regular file with another suffix leaves the count as it is; adding a
    regular file with one of the two suffixes raises it by one, whether or
    not the name begins with a dot.  A name that is a dot followed by
    characters without a dot, such as [.json], has the empty suffix and is
    not counted. *)
Theorem count_counts_matching_files (self : LocalFileStorage.t) (w : world) :
  (LocalFileStorage.count self w).1 = Ok (size (filter counted (files w)))
  ∧ (∀ name e, counted (name, e) ↔
       (∃ data, e = File data)
       ∧ (Path.suffix name = ".json" ∨ Path.suffix name = ".npy"))
  ∧ (∀ name e tr, files w !! name = None →
       (LocalFileStorage.count self (World (<[name := e]> (files w)) tr)).1
       = Ok (if decide (counted (name, e))
             then S (size (filter counted (files w)))
             else size (filter counted (files w))))
  ∧ (∀ rest, Path.rfind "." rest = None → rest ≠ "" →
       Path.suffix (String "." rest) = ""
       ∧ Path.suffix (String "." (rest +:+ ".json")) = ".json").
Proof.
  split; [apply count_run|]. split; [|split].
  - intros name e. unfold counted; simpl. rewrite supported_suffixes.
    destruct e; simpl; naive_solver.
  - intros name e tr Hnone. rewrite (proj1 (count_run _ _)); simpl.
    case_decide.
    + by rewrite counted_insert_new.
    + by rewrite counted_insert_skip.
  - intros rest Hrest Hne. split.
    + apply suffix_empty_key. simpl. by rewrite Hrest.
    + apply (suffix_app (String "." rest) "j" "son"); done.
Qed.

Lemma count_counts_matching_files_witness :
  let w := World {[ "a.json" := File []; "sub.json" := Dir ]} [] in
  (LocalFileStorage.count my_storage
     (World (<[".b.npy" := File []]> (files w)) [])).1 = Ok 2%nat
  ∧ Path.suffix ".json" = "".
Proof.
  intros w.
  destruct (count_counts_matching_files my_storage w) as (_ & _ & H3 & H4).
  split.
  - rewrite (H3 ".b.npy" (File []) [] eq_refl). vm_compute. reflexivity.
  - exact (proj1 (H4 "json" eq_refl ltac:(discriminate))).
Defined.

(** ** The built-in serializers *)

Section Codecs.
Variable L : pylib.

Lemma existsb_has_key_fresh k (d : list (pyval * pyval)) ks :
  mapM str_key d = Some ks → k ∉ ks →
  existsb (JsonSerializer.has_key k) d = false.
Proof.
  rewrite mapM_Some. induction 1 as [|[key v] s d ks Hs _ IH]; [done|].
  intros Hk. apply not_elem_of_cons in Hk as [Hne Hk]. simpl.
  rewrite (IH Hk), orb_false_r.
  unfold str_key in Hs. unfold JsonSerializer.has_key. simpl in *.
  destruct key; try done. injection Hs as ->. by apply String.eqb_neq.
Qed.

(** Building a dict from pairs with pairwise different keys appends them
    in order. *)
Lemma dict_fold_fresh (pairs : list (string * pyval)) :
  ∀ (acc : list (pyval * pyval)) ks,
    mapM str_key acc = Some ks →
    NoDup (ks ++ pairs.*1) →
    foldl (λ d kv, JsonSerializer.dict_setitem d kv.1 kv.2) acc pairs
    = acc ++ (prod_map PStr id <$> pairs).
Proof.
  induction pairs as [|[k v] pairs IH]; intros acc ks Hacc Hnd.
  - simpl. by rewrite app_nil_r.
  - simpl. unfold JsonSerializer.dict_setitem at 2; simpl.
    rewrite (existsb_has_key_fresh k acc ks Hacc).
    + rewrite (IH (acc ++ [(PStr k, v)]) (ks ++ [k])).
      * by rewrite <- app_assoc.
      * apply mapM_Some. apply Forall2_app; [by apply mapM_Some|].
        by repeat constructor.
      * by rewrite <- app_assoc.
    + apply NoDup_app in Hnd as (_ & Hdisj & _).
      intros Hin. apply (Hdisj k Hin). simpl. left.
Qed.

Lemma dict_of_items (items : list (pyval * pyval)) ks :
  mapM str_key items = Some ks → NoDup ks →
  JsonSerializer.dict_of ((λ kv, (py_str L kv.1, kv.2)) <$> items)
  = PDict items.
Proof.
  intros Hks Hnd. unfold JsonSerializer.dict_of. f_equal.
  assert (Hshape : ((λ kv, (py_str L kv.1, kv.2)) <$> items).*1 = ks
                   ∧ prod_map PStr id <$> ((λ kv, (py_str L kv.1, kv.2)) <$> items)
                     = items).
  { clear Hnd. apply mapM_Some in Hks.
    induction Hks as [|[key v] s items ks Hs _ [IH1 IH2]]; [done|].
    unfold str_key in Hs; simpl in Hs. destruct key; try done.
    injection Hs as ->. csimpl.
    split; by f_equal. }
  destruct Hshape as [Hkeys Hitems].
  rewrite (dict_fold_fresh _ [] []); simpl; [done|done|].
  by rewrite Hkeys.
Qed.

(** [_to_json_compatible] returns a JSON-compatible value as it is. *)
Lemma to_json_compatible_id (x : pyval) :
  json_value x → JsonSerializer._to_json_compatible L x = x.
Proof.
  induction x as [| | | | |fields _|items IH|l IH|l _|attrs _| |]
    using pyval_nested_ind; simpl; try done.
  - destruct (mapM str_key items) as [ks|] eqn:Hks; [|done].
    intros [Hnd Hall]%andb_True. apply bool_decide_unpack in Hnd.
    rewrite <- (dict_of_items items ks Hks Hnd). f_equal.
    apply Forall_fmap_ext_1. apply forallb_True in Hall.
    eapply Forall_impl; [apply Forall_and; split; [exact IH|exact Hall]|].
    intros kv [[_ Hv] Hj]; simpl in *. by rewrite (Hv Hj).
  - intros Hall. f_equal. apply forallb_True in Hall.
    rewrite <- (list_fmap_id l) at 2. apply Forall_fmap_ext_1.
    eapply Forall_impl; [apply Forall_and; split; [exact IH|exact Hall]|].
    intros y [Hy Hj]; simpl in *. by apply Hy.
Qed.

Lemma json_serializer_faithful (x : pyval) :
  json_value x → json_roundtrip L x → faithful_on (JsonSerializer.new L) x.
Proof.
  intros Hj (text & Hdumps & Hutf & Hloads).
  exists (encode_utf8 L text). simpl.
  unfold JsonSerializer.serialize, JsonSerializer.deserialize, rbind.
  rewrite (to_json_compatible_id x Hj), Hdumps, Hutf. done.
Qed.

Lemma numpy_serializer_faithful (x : pyval) :
  numpy_roundtrip L x → faithful_on (NumpySerializer.new L) x.
Proof. intros (data & Hsave & Hload). by exists data. Qed.

(** The registry of a storage built by the constructor. *)
Lemma init_registry base w0 self fmt s :
  (LocalFileStorage.__init__ L base w0).1 = Ok self →
  _format_map (_registry self) !! fmt = Some s →
  (fmt = "json" ∧ s = JsonSerializer.new L)
  ∨ (fmt = "npy" ∧ s = NumpySerializer.new L).
Proof.
  unfold LocalFileStorage.__init__; simpl. intros [= <-]; simpl.
  rewrite lookup_insert_Some, lookup_insert_Some, lookup_empty.
  naive_solver.
Qed.

End Codecs.

(** ** Reading back what was saved *)

Section RoundTrip.
Variable self : LocalFileStorage.t.

(** Whenever [save] returns, a [get] on the same pair right after returns
    what the serializer decodes from the bytes it encoded. *)
Lemma get_after_save_faithful key value fmt s w w' :
  _format_map (_registry self) !! fmt = Some s →
  faithful_on s value →
  LocalFileStorage.save self key value fmt w = (Ok tt, w') →
  (LocalFileStorage.get self key fmt w').1 = Ok value.
Proof.
  intros Hs (data & Hser & Hdes) Hsave.
  destruct (save_outcome self key value fmt w)
    as [(s' & ext & data' & Hs' & Hext & Hser' & _ & Heq)|(e & He & _)].
  - rewrite Heq in Hsave. injection Hsave as <-.
    assert (s' = s) as -> by congruence.
    assert (data' = data) as -> by congruence.
    unfold_ops. rewrite Hs, Hext; simpl.
    rewrite lookup_insert_eq.
    rewrite bool_decide_eq_true_2 by eauto. simpl.
    by rewrite lookup_insert_eq.
  - by rewrite Hsave in He.
Qed.

(** [save] returns when the serializer is registered, the format has an
    extension, the value can be encoded and the path is not a
    directory. *)
Lemma save_returns key value fmt s ext data w :
  _format_map (_registry self) !! fmt = Some s →
  FORMAT_TO_EXTENSION !! fmt = Some ext →
  serialize s value = Ok data →
  files w !! (key +:+ ext) ≠ Some Dir →
  LocalFileStorage.save self key value fmt w
  = (Ok tt, World (<[key +:+ ext := File data]> (files w))
                  (trace w ++ [SysWrite (key +:+ ext)])).
Proof.
  intros Hs Hext Hser Hdir. unfold_ops. rewrite Hs, Hext; simpl.
  rewrite Hser. by destruct (files w !! (key +:+ ext)) as [[d|]|].
Qed.

End RoundTrip.

(** C1.  Take the storage the constructor builds, a format [fmt] with a
    registered serializer and a value the format stores: a
    JSON-compatible value under ["json"], a value [numpy] saves and loads
    back, such as an array, under ["npy"].  Then, for every key, a [get]
    right after a [save] that returned gives back the saved value, equal
    in structure and, for an array, in dtype, shape and elements. *)
Theorem get_after_save
    (L : pylib) (base : string) (w0 : world) (self : LocalFileStorage.t)
    (key : string) (value : pyval) (fmt : string) (s : Serializer)
    (w w' : world) :
  (LocalFileStorage.__init__ L base w0).1 = Ok self →
  _format_map (_registry self) !! fmt = Some s →
  storable L fmt value →
  LocalFileStorage.save self key value fmt w = (Ok tt, w') →
  (LocalFileStorage.get self key fmt w').1 = Ok value.
Proof.
  intros Hinit Hs Hstorable.
  assert (Hfaithful : faithful_on s value).
  { destruct (init_registry L base w0 self fmt s Hinit Hs) as [[-> ->]|[-> ->]];
      destruct Hstorable as [(Hf & Hj & Hrt)|(Hf & Hrt)]; try discriminate Hf.
    - by apply json_serializer_faithful.
    - by apply numpy_serializer_faithful. }
  by apply get_after_save_faithful with (s := s).
Qed.

Lemma get_after_save_witness :
  let arr := PArray (NdArray "uint8" [3%nat] [1; 2; 255]%Z) in
  (LocalFileStorage.get my_storage "2" "json"
     (LocalFileStorage.save my_storage "2" (PInt 2) "json" empty_dir).2).1
  = Ok (PInt 2)
  ∧ (LocalFileStorage.get my_storage "matrix" "npy"
       (LocalFileStorage.save my_storage "matrix" arr "npy" empty_dir).2).1
    = Ok arr.
Proof.
  intros arr. split.
  - refine (get_after_save SmallLib.lib "./my_storage" empty_dir my_storage
              "2" (PInt 2) "json" (JsonSerializer.new SmallLib.lib) empty_dir _
              eq_refl eq_refl _ eq_refl).
    left. split; [reflexivity|]. split; [exact I|].
    exists "2". repeat split; reflexivity.
  - refine (get_after_save SmallLib.lib "./my_storage" empty_dir my_storage
              "matrix" arr "npy" (NumpySerializer.new SmallLib.lib) empty_dir _
              eq_refl eq_refl _ eq_refl).
    right. split; [reflexivity|].
    exists [x01; x02; xff]%byte. split; reflexivity.
Defined.

(** ** Histories *)

Section Histories.
Variable self : LocalFileStorage.t.
Implicit Types (fs : gmap string entry) (live : gset (string * string)).

Lemma counted_stored k f ext data :
  k ≠ "" → FORMAT_TO_EXTENSION !! f = Some ext →
  counted (k +:+ ext, File data).
Proof.
  intros Hk Hext. split; [done|]. simpl.
  rewrite (suffix_of_stored k f ext Hk Hext). by eapply elem_of_map_img_2.
Qed.







End Histories.




(** The boundary of C3: the empty key is saved as [.json], whose suffix is
    empty, and the file is not counted. *)
Example empty_key_is_not_counted :
  let w := (LocalFileStorage.save my_storage "" (PInt 1) "json" empty_dir).2 in
  (LocalFileStorage.exists_ my_storage "" "json" w).1 = Ok true
  ∧ (LocalFileStorage.count my_storage w).1 = Ok 0%nat.
Proof. vm_compute. split; reflexivity. Qed.

(** * Further properties *)

(** ** The registry *)

(** X1.  [supported_formats] lists, without repetition, exactly the formats
    on which [get] returns a serializer; on a new registry the list is
    empty and every [get] raises. *)
Theorem supported_formats_are_gettable (r : SerializerRegistry.t) (f : string) :
  (f ∈ SerializerRegistry.supported_formats r
   ↔ ∃ s, SerializerRegistry.get r f = Ok s)
  ∧ NoDup (SerializerRegistry.supported_formats r)
  ∧ SerializerRegistry.supported_formats SerializerRegistry.__init__ = []
  ∧ SerializerRegistry.get SerializerRegistry.__init__ f
    = Err (NoSerializerRegistered f).
Proof.
  unfold SerializerRegistry.supported_formats, SerializerRegistry.get.
  split_and!.
  - rewrite list_elem_of_fmap. split.
    + intros ([f' s] & -> & Hin%elem_of_map_to_list). simpl.
      exists s. by rewrite Hin.
    + intros [s Hs]. destruct (_format_map r !! f) as [s'|] eqn:Hl; [|done].
      exists (f, s'). split; [done|]. by apply elem_of_map_to_list.
  - apply NoDup_fst_map_to_list.
  - simpl. by rewrite map_to_list_empty.
  - simpl. by rewrite lookup_empty.
Qed.

(** X2.  Registering a serializer changes what [get] returns for its own
    format only, and adds that format, and no other, to
    [supported_formats]. *)
Theorem register_touches_one_format
    (r : SerializerRegistry.t) (s : Serializer) (f : string) :
  (f ≠ format s →
   SerializerRegistry.get (SerializerRegistry.register r s) f
   = SerializerRegistry.get r f)
  ∧ (f ∈ SerializerRegistry.supported_formats (SerializerRegistry.register r s)
     ↔ f = format s ∨ f ∈ SerializerRegistry.supported_formats r).
Proof.
  split; [apply get_register_ne|].
  unfold SerializerRegistry.supported_formats, SerializerRegistry.register; simpl.
  rewrite !list_elem_of_fmap. split.
  - intros ([f' s'] & -> & Hin%elem_of_map_to_list). simpl.
    apply lookup_insert_Some in Hin as [[<- <-]|[Hne Hin]]; [by left|].
    right. exists (f', s'). split; [done|]. by apply elem_of_map_to_list.
  - intros [->|([f' s'] & -> & Hin%elem_of_map_to_list)].
    + exists (format s, s). split; [done|].
      apply elem_of_map_to_list, lookup_insert_eq.
    + simpl. destruct (decide (f' = format s)) as [->|Hne].
      * exists (format s, s). split; [done|].
        apply elem_of_map_to_list, lookup_insert_eq.
      * exists (f', s'). split; [done|].
        apply elem_of_map_to_list. by rewrite lookup_insert_ne.
Qed.

Lemma register_touches_one_format_witness :
  SerializerRegistry.get
    (SerializerRegistry.register
       (SerializerRegistry.register SerializerRegistry.__init__
          (NumpySerializer.new SmallLib.lib))
       (JsonSerializer.new SmallLib.lib)) "npy"
  = SerializerRegistry.get
      (SerializerRegistry.register SerializerRegistry.__init__
         (NumpySerializer.new SmallLib.lib)) "npy".
Proof.
  apply (proj1 (register_touches_one_format _ (JsonSerializer.new SmallLib.lib) "npy")).
  discriminate.
Defined.

(** X3.  After any sequence of registrations on a new registry, [get]
    returns the serializer registered last among those whose format
    identifier is the requested one, and raises when there is none. *)
Theorem get_after_registrations (l : list Serializer) (f : string) :
  SerializerRegistry.get
    (foldl SerializerRegistry.register SerializerRegistry.__init__ l) f
  = match last (filter (λ s, format s = f) l) with
    | Some s => Ok s
    | None => Err (NoSerializerRegistered f)
    end.
Proof.
  induction l as [|s l IH] using rev_ind.
  - simpl. unfold SerializerRegistry.get; simpl. by rewrite lookup_empty.
  - rewrite foldl_snoc, filter_app, filter_cons, filter_nil.
    destruct (decide (format s = f)) as [<-|Hne].
    + rewrite last_snoc. apply get_register.
    + rewrite app_nil_r, <- IH. apply get_register_ne. congruence.
Qed.

(** ** The constructor *)

(** X4.  In a storage built by the constructor the registered formats are
    those of the extension table, ["json"] and ["npy"].  So a format
    without extension has no serializer either, and [save] and [get] raise
    the registry's error for it, before any file-system call. *)
Theorem constructor_registers_table_formats
    (L : pylib) (base : string) (w0 : world) (self : LocalFileStorage.t) :
  (LocalFileStorage.__init__ L base w0).1 = Ok self →
  (∀ f, f ∈ SerializerRegistry.supported_formats (_registry self)
        ↔ f = "json" ∨ f = "npy")
  ∧ (∀ f, (∃ s, SerializerRegistry.get (_registry self) f = Ok s)
          ↔ (∃ ext, LocalFileStorage._get_extension f = Ok ext))
  ∧ (∀ key value f w,
       FORMAT_TO_EXTENSION !! f = None →
       LocalFileStorage.save self key value f w = (Err (NoSerializerRegistered f), w)
       ∧ LocalFileStorage.get self key f w = (Err (NoSerializerRegistered f), w)).
Proof.
  unfold LocalFileStorage.__init__; simpl. intros [= <-]; simpl.
  assert (Hreg : ∀ f s,
    (<["json" := JsonSerializer.new L]>
       (<["npy" := NumpySerializer.new L]> (∅ : gmap string Serializer))) !! f = Some s
    ↔ (f = "json" ∧ s = JsonSerializer.new L) ∨ (f = "npy" ∧ s = NumpySerializer.new L)).
  { intros f s. rewrite lookup_insert_Some, lookup_insert_Some, lookup_empty.
    naive_solver. }
  split_and!.
  - intros f. unfold SerializerRegistry.supported_formats; simpl.
    rewrite list_elem_of_fmap. split.
    + intros ([f' s] & -> & Hin%elem_of_map_to_list). simpl.
      apply Hreg in Hin. naive_solver.
    + intros [-> | ->]; eexists (_, _); (split; [reflexivity|]);
        apply elem_of_map_to_list, Hreg; eauto.
  - intros f. unfold SerializerRegistry.get, LocalFileStorage._get_extension; simpl.
    split.
    + intros [s Hs].
      destruct (_ !! f) as [s'|] eqn:Hl in Hs; [|done].
      apply Hreg in Hl as [[-> _]|[-> _]]; by eexists.
    + intros [ext Hext].
      destruct (FORMAT_TO_EXTENSION !! f) as [e|] eqn:Hl; [|done].
      apply extension_cases in Hl as [[-> _]|[-> _]]; by eexists.
  - intros key value f w Hnone.
    assert (Hmiss : (<["json" := JsonSerializer.new L]>
       (<["npy" := NumpySerializer.new L]> (∅ : gmap string Serializer))) !! f = None).
    { apply eq_None_not_Some. intros [s Hs]. apply Hreg in Hs.
      destruct Hs as [[-> _]|[-> _]]; by vm_compute in Hnone. }
    unfold_ops; simpl. by rewrite Hmiss.
Qed.

Lemma constructor_registers_table_formats_witness :
  LocalFileStorage.save my_storage "k" PNone "xml" empty_dir
  = (Err (NoSerializerRegistered "xml"), empty_dir).
Proof.
  destruct (constructor_registers_table_formats SmallLib.lib "./my_storage"
              empty_dir my_storage eq_refl) as (_ & _ & H).
  exact (proj1 (H "k" PNone "xml" empty_dir eq_refl)).
Defined.

(** ** Saving and reading back, in general *)

(** X5.  Whatever serializer is registered for the format: when [save]
    returns, the value was encoded, and a [get] on the same pair right
    after returns what the same serializer decodes from these bytes, or
    raises what the decoder raises. *)
Theorem get_after_save_decodes
    (self : LocalFileStorage.t) (key : string) (value : pyval) (fmt : string)
    (s : Serializer) (w w' : world) :
  _format_map (_registry self) !! fmt = Some s →
  LocalFileStorage.save self key value fmt w = (Ok tt, w') →
  ∃ data, serialize s value = Ok data
          ∧ (LocalFileStorage.get self key fmt w').1 = deserialize s data.
Proof.
  intros Hs Hsave.
  destruct (save_outcome self key value fmt w)
    as [(s' & ext & data & Hs' & Hext & Hser & _ & Heq)|(e & He & _)].
  - rewrite Heq in Hsave. injection Hsave as <-.
    assert (s' = s) as -> by congruence.
    exists data. split; [done|].
    unfold_ops. rewrite Hs, Hext; simpl. rewrite lookup_insert_eq.
    rewrite bool_decide_eq_true_2 by eauto. simpl.
    rewrite lookup_insert_eq. by destruct (deserialize s data).
  - by rewrite Hsave in He.
Qed.

Lemma get_after_save_decodes_witness :
  ∃ data, serialize (JsonSerializer.new SmallLib.lib) (PBool true) = Ok data
    ∧ (LocalFileStorage.get my_storage "flag" "json"
         (LocalFileStorage.save my_storage "flag" (PBool true) "json" empty_dir).2).1
      = deserialize (JsonSerializer.new SmallLib.lib) data.
Proof.
  apply (get_after_save_decodes my_storage "flag" (PBool true) "json"
           (JsonSerializer.new SmallLib.lib) empty_dir); reflexivity.
Defined.

(** ** The JSON conversion *)

Section Conversion.
Variable L : pylib.
Implicit Types (d : list (pyval * pyval)) (k : string) (v : pyval).

Lemma existsb_has_key_elem k d ks :
  mapM str_key d = Some ks →
  existsb (JsonSerializer.has_key k) d = true ↔ k ∈ ks.
Proof.
  rewrite mapM_Some. induction 1 as [|[key v] s d ks Hs _ IH]; simpl.
  - split; [done|]. by intros ?%elem_of_nil.
  - rewrite orb_true_iff, IH, elem_of_cons.
    unfold str_key in Hs. unfold JsonSerializer.has_key. simpl in *.
    destruct key; try done. injection Hs as ->.
    rewrite String.eqb_eq. naive_solver.
Qed.

Lemma dict_setitem_keys d ks k v :
  mapM str_key d = Some ks → NoDup ks →
  ∃ ks', mapM str_key (JsonSerializer.dict_setitem d k v) = Some ks' ∧ NoDup ks'.
Proof.
  intros Hks Hnd. unfold JsonSerializer.dict_setitem.
  destruct (existsb (JsonSerializer.has_key k) d) eqn:Hex.
  - exists ks. split; [|done]. apply mapM_Some, Forall2_fmap_l.
    apply mapM_Some in Hks. eapply Forall2_impl; [exact Hks|].
    intros kv s Hs; simpl. by destruct (JsonSerializer.has_key k kv).
  - exists (ks ++ [k]). split.
    + apply mapM_Some, Forall2_app; [by apply mapM_Some|]. by repeat constructor.
    + apply NoDup_app. split_and!; [done| |apply NoDup_singleton].
      intros x Hx Hxk%list_elem_of_singleton. subst x.
      apply (existsb_has_key_elem k d ks Hks) in Hx. congruence.
Qed.

Lemma dict_setitem_values (P : pyval → Prop) d k v :
  Forall (λ kv, P kv.2) d → P v →
  Forall (λ kv, P kv.2) (JsonSerializer.dict_setitem d k v).
Proof.
  intros Hd Hv. unfold JsonSerializer.dict_setitem.
  destruct (existsb (JsonSerializer.has_key k) d).
  - apply Forall_fmap. eapply Forall_impl; [exact Hd|].
    intros kv Hkv; simpl. by destruct (JsonSerializer.has_key k kv).
  - apply Forall_app. split; [done|]. by constructor.
Qed.

(** A dict comprehension over JSON-compatible values gives a
    JSON-compatible dict. *)
Lemma dict_of_json_value (pairs : list (string * pyval)) :
  Forall (λ kv, json_value kv.2) pairs →
  json_value (JsonSerializer.dict_of pairs).
Proof.
  intros Hpairs. unfold JsonSerializer.dict_of.
  assert (Hinv : ∀ acc ks,
    mapM str_key acc = Some ks → NoDup ks → Forall (λ kv, json_value kv.2) acc →
    ∃ ks', mapM str_key
             (foldl (λ d kv, JsonSerializer.dict_setitem d kv.1 kv.2) acc pairs)
           = Some ks'
      ∧ NoDup ks'
      ∧ Forall (λ kv, json_value kv.2)
          (foldl (λ d kv, JsonSerializer.dict_setitem d kv.1 kv.2) acc pairs)).
  { induction Hpairs as [|[k v] pairs Hv _ IH]; intros acc ks Hks Hnd Hacc.
    - exists ks. done.
    - simpl.
      destruct (dict_setitem_keys acc ks k v Hks Hnd) as (ks1 & Hks1 & Hnd1).
      apply (IH _ ks1 Hks1 Hnd1).
      by apply (dict_setitem_values (λ y, Is_true (json_value y))). }
  destruct (Hinv [] [] eq_refl (NoDup_nil_2 (A:=string)) (List.Forall_nil _))
    as (ks & Hks & Hnd & Hall).
  simpl. rewrite Hks. apply andb_True. split.
  - by apply bool_decide_pack.
  - by apply forallb_True.
Qed.

Lemma to_json_compatible_json_value (x : pyval) :
  dataclass_free x → json_value (JsonSerializer._to_json_compatible L x).
Proof.
  induction x as [| | | | |fields _|items IH|l IH|l IH|attrs IH| |]
    using pyval_nested_ind; simpl; try done.
  - intros Hfree%forallb_True. apply dict_of_json_value, Forall_fmap.
    eapply Forall_impl; [apply Forall_and; split; [exact IH|exact Hfree]|].
    intros kv [[_ Hv] Hf]; simpl in *. by apply Hv.
  - intros Hfree%forallb_True. apply forallb_True, Forall_fmap.
    eapply Forall_impl; [apply Forall_and; split; [exact IH|exact Hfree]|].
    intros y [Hy Hf]; simpl in *. by apply Hy.
  - intros Hfree%forallb_True. apply forallb_True, Forall_fmap.
    eapply Forall_impl; [apply Forall_and; split; [exact IH|exact Hfree]|].
    intros y [Hy Hf]; simpl in *. by apply Hy.
  - intros Hfree%forallb_True. apply dict_of_json_value, Forall_fmap.
    eapply Forall_impl; [apply Forall_and; split; [exact IH|exact Hfree]|].
    intros kv [Hv Hf]; simpl in *. by apply Hv.
Qed.

Lemma dict_lookup_app d1 d2 k :
  dict_lookup (d1 ++ d2) k
  = match dict_lookup d1 k with Some v => Some v | None => dict_lookup d2 k end.
Proof.
  induction d1 as [|kv d1 IH]; simpl; [done|].
  by destruct (JsonSerializer.has_key k kv).
Qed.

Lemma dict_lookup_none d k :
  existsb (JsonSerializer.has_key k) d = false → dict_lookup d k = None.
Proof.
  induction d as [|kv d IH]; simpl; [done|].
  destruct (JsonSerializer.has_key k kv); simpl; [done|exact IH].
Qed.

Lemma has_key_inj k k' kv :
  JsonSerializer.has_key k kv = true → JsonSerializer.has_key k' kv = true → k = k'.
Proof.
  unfold JsonSerializer.has_key. destruct kv.1; try done.
  intros H1%String.eqb_eq H2%String.eqb_eq. congruence.
Qed.

Lemma dict_lookup_some d k :
  existsb (JsonSerializer.has_key k) d = true → is_Some (dict_lookup d k).
Proof.
  induction d as [|kv d IH]; simpl; [done|].
  destruct (JsonSerializer.has_key k kv); simpl; [eauto|exact IH].
Qed.

Lemma dict_lookup_replace d k' v k :
  dict_lookup ((λ kv, if JsonSerializer.has_key k' kv then (kv.1, v) else kv) <$> d) k
  = match dict_lookup d k with
    | Some v0 => if decide (k = k') then Some v else Some v0
    | None => None
    end.
Proof.
  induction d as [|kv d IH]; [done|]. csimpl.
  destruct (JsonSerializer.has_key k' kv) eqn:Hk';
    destruct (JsonSerializer.has_key k kv) eqn:Hk.
  - change (JsonSerializer.has_key k (kv.1, v)) with (JsonSerializer.has_key k kv).
    rewrite Hk. simpl. by rewrite decide_True by (by eapply has_key_inj).
  - change (JsonSerializer.has_key k (kv.1, v)) with (JsonSerializer.has_key k kv).
    rewrite Hk. exact IH.
  - simpl. rewrite decide_False; [done|]. intros ->. congruence.
  - exact IH.
Qed.

(** [d[k'] = v], then [d.get(k)]. *)
Lemma dict_lookup_setitem d k' v k :
  dict_lookup (JsonSerializer.dict_setitem d k' v) k
  = if decide (k = k') then Some v else dict_lookup d k.
Proof.
  unfold JsonSerializer.dict_setitem.
  destruct (existsb (JsonSerializer.has_key k') d) eqn:Hex.
  - rewrite dict_lookup_replace.
    destruct (decide (k = k')) as [->|Hne].
    + by destruct (dict_lookup_some _ _ Hex) as [v0 ->].
    + by destruct (dict_lookup d k).
  - rewrite dict_lookup_app; simpl.
    destruct (decide (k = k')) as [->|Hne].
    + rewrite (dict_lookup_none _ _ Hex).
      unfold JsonSerializer.has_key; simpl. by rewrite String.eqb_refl.
    + unfold JsonSerializer.has_key; simpl.
      replace (String.eqb k' k) with false
        by (symmetry; apply String.eqb_neq; congruence).
      by destruct (dict_lookup d k).
Qed.

Lemma dict_lookup_fold (pairs : list (string * pyval)) d k :
  dict_lookup (foldl (λ d kv, JsonSerializer.dict_setitem d kv.1 kv.2) d pairs) k
  = match last_binding k pairs with
    | Some v => Some v
    | None => dict_lookup d k
    end.
Proof.
  unfold last_binding.
  induction pairs as [|[k' v] pairs IH] using rev_ind; [done|].
  rewrite foldl_snoc, dict_lookup_setitem, filter_app, filter_cons, filter_nil.
  simpl. destruct (decide (k = k')) as [->|Hne].
  - rewrite decide_True by done. by rewrite last_snoc.
  - rewrite decide_False by congruence. by rewrite app_nil_r.
Qed.

Lemma to_json_compatible_object (attrs : list (string * pyval)) :
  NoDup attrs.*1 → Forall (λ kv, json_value kv.2) attrs →
  JsonSerializer._to_json_compatible L (PObject attrs) = attrs_dict attrs.
Proof.
  intros Hnd Hall. simpl. unfold JsonSerializer.dict_of, attrs_dict. f_equal.
  assert (Hsame : (λ kv : string * pyval,
                     (kv.1, JsonSerializer._to_json_compatible L kv.2)) <$> attrs
                  = attrs).
  { rewrite <- (list_fmap_id attrs) at 2. apply Forall_fmap_ext_1.
    eapply Forall_impl; [exact Hall|].
    intros [k v] Hv; simpl in *. by rewrite to_json_compatible_id. }
  rewrite Hsame. by rewrite (dict_fold_fresh attrs [] []).
Qed.

End Conversion.

(** X6.  On a value that holds no dataclass instance, [_to_json_compatible]
    returns a JSON-compatible value: [None], a boolean, a number, a string,
    a list of such values or a dict with pairwise different string keys
    and such values.  Converting the result again changes nothing. *)
Theorem to_json_compatible_normalises (L : pylib) (x : pyval) :
  dataclass_free x →
  json_value (JsonSerializer._to_json_compatible L x)
  ∧ JsonSerializer._to_json_compatible L (JsonSerializer._to_json_compatible L x)
    = JsonSerializer._to_json_compatible L x.
Proof.
  intros Hfree.
  pose proof (to_json_compatible_json_value L x Hfree) as Hj.
  split; [done|]. by apply to_json_compatible_id.
Qed.

Lemma to_json_compatible_normalises_witness :
  json_value
    (JsonSerializer._to_json_compatible SmallLib.lib
       (PTuple [PInt 1; PObject [("n", PTuple [PNone])];
                PDict [(PInt 1, PStr "a"); (PStr "1", PStr "b")]])).
Proof.
  apply (to_json_compatible_normalises SmallLib.lib). exact I.
Defined.

(** X7.  The dict that [_to_json_compatible] builds from a dict holds, under
    a string [k], the converted value of the last item whose key has
    [str(key) = k]: when the strings of two keys collide, the later item
    wins, and a string that no key has is absent. *)
Theorem to_json_compatible_dict_last_wins
    (L : pylib) (items : list (pyval * pyval)) (k : string) :
  ∃ d, JsonSerializer._to_json_compatible L (PDict items) = PDict d
       ∧ dict_lookup d k
         = last_binding k
             ((λ kv, (py_str L kv.1, JsonSerializer._to_json_compatible L kv.2))
                <$> items).
Proof.
  simpl. unfold JsonSerializer.dict_of. eexists. split; [reflexivity|].
  rewrite dict_lookup_fold. simpl. by destruct (last_binding _ _).
Qed.

(** ** More on the storage operations *)

Section Storage.
Variable self : LocalFileStorage.t.
Implicit Types (w : world) (key fmt ext : string) (s : Serializer).

(** [get] on a path that holds a regular file. *)
Lemma get_present key fmt s ext data w :
  _format_map (_registry self) !! fmt = Some s →
  FORMAT_TO_EXTENSION !! fmt = Some ext →
  files w !! (key +:+ ext) = Some (File data) →
  LocalFileStorage.get self key fmt w
  = (deserialize s data,
     World (files w) (trace w ++ [SysStat (key +:+ ext); SysRead (key +:+ ext)])).
Proof.
  intros Hs Hext Hfile. unfold_ops. rewrite Hs, Hext; simpl. rewrite Hfile.
  rewrite bool_decide_eq_true_2 by eauto. simpl. rewrite Hfile.
  rewrite <- app_assoc. by destruct (deserialize s data).
Qed.

Lemma get_absent key fmt s ext w :
  _format_map (_registry self) !! fmt = Some s →
  FORMAT_TO_EXTENSION !! fmt = Some ext →
  files w !! (key +:+ ext) = None →
  LocalFileStorage.get self key fmt w
  = (Err (KeyNotFound key), log (SysStat (key +:+ ext)) w).
Proof.
  intros Hs Hext Hfile. unfold_ops. rewrite Hs, Hext; simpl. rewrite Hfile.
  by rewrite bool_decide_eq_false_2 by (by intros [? ?]).
Qed.

Lemma save_written key value fmt w w' :
  LocalFileStorage.save self key value fmt w = (Ok tt, w') →
  ∃ s ext data,
    _format_map (_registry self) !! fmt = Some s
    ∧ FORMAT_TO_EXTENSION !! fmt = Some ext
    ∧ serialize s value = Ok data
    ∧ files w !! (key +:+ ext) ≠ Some Dir
    ∧ w' = World (<[key +:+ ext := File data]> (files w))
                 (trace w ++ [SysWrite (key +:+ ext)]).
Proof.
  intros Hsave.
  destruct (save_outcome self key value fmt w)
    as [(s & ext & data & Hs & Hext & Hser & Hdir & Heq)|(e & He & _)].
  - rewrite Heq in Hsave. injection Hsave as <-. by exists s, ext, data.
  - by rewrite Hsave in He.
Qed.

End Storage.

(** X8.  Under ["json"], a [get] right after a [save] that returned gives
    the value in the form [_to_json_compatible] gives it, provided the
    [json] module prints and reads back that form: an object with a
    [__dict__] of JSON-compatible attributes comes back as the dict of its
    attributes, a tuple of JSON-compatible items as the list of its
    items. *)
Theorem get_returns_converted_value
    (L : pylib) (self : LocalFileStorage.t) (key : string) (value : pyval)
    (w w' : world) :
  _format_map (_registry self) !! "json" = Some (JsonSerializer.new L) →
  json_roundtrip L (JsonSerializer._to_json_compatible L value) →
  LocalFileStorage.save self key value "json" w = (Ok tt, w') →
  (LocalFileStorage.get self key "json" w').1
  = Ok (JsonSerializer._to_json_compatible L value)
  ∧ (∀ attrs, value = PObject attrs →
       NoDup attrs.*1 → Forall (λ kv, json_value kv.2) attrs →
       JsonSerializer._to_json_compatible L value = attrs_dict attrs)
  ∧ (∀ l, value = PTuple l → Forall (λ y, json_value y) l →
       JsonSerializer._to_json_compatible L value = PList l).
Proof.
  intros Hs (text & Hdumps & Hutf & Hloads)
    (s' & ext & data & Hs' & Hext & Hser & _ & ->)%save_written.
  assert (s' = JsonSerializer.new L) as -> by congruence.
  assert (ext = ".json") as -> by (by vm_compute in Hext; injection Hext).
  split_and!.
  - simpl in Hser. unfold JsonSerializer.serialize, rbind in Hser.
    rewrite Hdumps in Hser. injection Hser as <-.
    rewrite (get_present self key "json" (JsonSerializer.new L) ".json"
               (encode_utf8 L text)); [|done|done|apply lookup_insert_eq].
    simpl. unfold JsonSerializer.deserialize, rbind. by rewrite Hutf.
  - intros attrs -> Hnd Hall. by apply to_json_compatible_object.
  - intros l -> Hall. simpl. f_equal.
    rewrite <- (list_fmap_id l) at 2. apply Forall_fmap_ext_1.
    eapply Forall_impl; [exact Hall|].
    intros y Hy; simpl. by apply to_json_compatible_id.
Qed.

Lemma get_returns_converted_value_witness :
  (LocalFileStorage.get my_storage "t" "json"
     (LocalFileStorage.save my_storage "t" (PInt 7) "json"
        (World {[ "t.json" := File [] ]} [])).2).1
  = Ok (JsonSerializer._to_json_compatible SmallLib.lib (PInt 7)).
Proof.
  refine (proj1 (get_returns_converted_value SmallLib.lib my_storage "t"
                   (PInt 7) (World {[ "t.json" := File [] ]} []) _
                   eq_refl _ eq_refl)).
  exists "7". repeat split; reflexivity.
Defined.

(** X9.  A second [save] on the same pair replaces the file: the entries
    after saving [v1] and then [v2] are those after saving [v2] alone, and
    a [get] decodes the bytes of [v2]. *)
Theorem save_overwrites
    (self : LocalFileStorage.t) (key : string) (v1 v2 : pyval) (fmt : string)
    (w w1 w2 : world) :
  LocalFileStorage.save self key v1 fmt w = (Ok tt, w1) →
  LocalFileStorage.save self key v2 fmt w1 = (Ok tt, w2) →
  ∃ w2' s data2,
    LocalFileStorage.save self key v2 fmt w = (Ok tt, w2')
    ∧ files w2 = files w2'
    ∧ _format_map (_registry self) !! fmt = Some s
    ∧ serialize s v2 = Ok data2
    ∧ (LocalFileStorage.get self key fmt w2).1 = deserialize s data2.
Proof.
  intros (s & ext & d1 & Hs & Hext & Hser1 & Hdir & ->)%save_written
         (s' & ext' & d2 & Hs' & Hext' & Hser2 & _ & ->)%save_written.
  assert (s' = s) as -> by congruence.
  assert (ext' = ext) as -> by congruence.
  exists (World (<[key +:+ ext := File d2]> (files w))
                (trace w ++ [SysWrite (key +:+ ext)])), s, d2.
  split_and!; [|cbn [files]|done|done|].
  - by apply save_returns with (s := s).
  - apply insert_insert_eq.
  - rewrite (get_present self key fmt s ext d2); [done..|].
    apply lookup_insert_eq.
Qed.

Lemma save_overwrites_witness :
  ∃ w2' s data2,
    LocalFileStorage.save my_storage "k" (PInt 2) "json" empty_dir = (Ok tt, w2')
    ∧ files (LocalFileStorage.save my_storage "k" (PInt 2) "json"
               (LocalFileStorage.save my_storage "k" (PInt 1) "json" empty_dir).2).2
      = files w2'
    ∧ _format_map (_registry my_storage) !! "json" = Some s
    ∧ serialize s (PInt 2) = Ok data2
    ∧ (LocalFileStorage.get my_storage "k" "json"
         (LocalFileStorage.save my_storage "k" (PInt 2) "json"
            (LocalFileStorage.save my_storage "k" (PInt 1) "json" empty_dir).2).2).1
      = deserialize s data2.
Proof.
  apply (save_overwrites my_storage "k" (PInt 1) (PInt 2) "json" empty_dir
           (LocalFileStorage.save my_storage "k" (PInt 1) "json" empty_dir).2);
    reflexivity.
Defined.

(** X10.  When the serializer raises on the value, [save] raises the same
    exception before it touches the file system: nothing is written, a
    file already stored under the pair stays as it was. *)
Theorem save_encoding_error
    (self : LocalFileStorage.t) (key : string) (value : pyval)
    (fmt ext : string) (s : Serializer) (e : error) (w : world) :
  _format_map (_registry self) !! fmt = Some s →
  FORMAT_TO_EXTENSION !! fmt = Some ext →
  serialize s value = Err e →
  LocalFileStorage.save self key value fmt w = (Err e, w).
Proof.
  intros Hs Hext Hser. unfold_ops. rewrite Hs, Hext; simpl. by rewrite Hser.
Qed.

Lemma save_encoding_error_witness :
  let w := World {[ "k.json" := File [] ]} [] in
  LocalFileStorage.save my_storage "k" (PStr "text") "json" w
  = (Err (CodecError "TypeError"), w).
Proof.
  intros w.
  apply (save_encoding_error my_storage "k" (PStr "text") "json" ".json"
           (JsonSerializer.new SmallLib.lib)); reflexivity.
Defined.

(** X11.  When the path of a pair is a directory, [exists] returns [True],
    and yet [get], [delete] and [save] raise an [OSError]; none of them
    changes an entry. *)
Theorem directory_at_path
    (self : LocalFileStorage.t) (key fmt ext : string) (w : world) :
  FORMAT_TO_EXTENSION !! fmt = Some ext →
  files w !! (key +:+ ext) = Some Dir →
  (LocalFileStorage.exists_ self key fmt w).1 = Ok true
  ∧ (∃ what, (LocalFileStorage.delete self key fmt w).1 = Err (OSError what))
  ∧ files (LocalFileStorage.delete self key fmt w).2 = files w
  ∧ (∀ s, _format_map (_registry self) !! fmt = Some s →
       (∃ what, (LocalFileStorage.get self key fmt w).1 = Err (OSError what))
       ∧ (∀ value data, serialize s value = Ok data →
            (∃ what, (LocalFileStorage.save self key value fmt w).1
                     = Err (OSError what))
            ∧ files (LocalFileStorage.save self key value fmt w).2 = files w)).
Proof.
  intros Hext Hdir. split_and!.
  - rewrite (exists_known _ _ _ _ _ Hext); simpl.
    by rewrite bool_decide_eq_true_2 by eauto.
  - unfold_ops. rewrite Hext; simpl. rewrite Hdir.
    rewrite bool_decide_eq_true_2 by eauto. simpl. rewrite Hdir. eauto.
  - unfold_ops. rewrite Hext; simpl. rewrite Hdir.
    rewrite bool_decide_eq_true_2 by eauto. simpl. by rewrite Hdir.
  - intros s Hs. split.
    + unfold_ops. rewrite Hs, Hext; simpl. rewrite Hdir.
      rewrite bool_decide_eq_true_2 by eauto. simpl. rewrite Hdir. eauto.
    + intros value data Hser. unfold_ops. rewrite Hs, Hext; simpl.
      rewrite Hser, Hdir. eauto.
Qed.

Lemma directory_at_path_witness :
  let w := World {[ "d.json" := Dir ]} [] in
  (LocalFileStorage.exists_ my_storage "d" "json" w).1 = Ok true
  ∧ ∃ what, (LocalFileStorage.delete my_storage "d" "json" w).1 = Err (OSError what).
Proof.
  intros w.
  destruct (directory_at_path my_storage "d" "json" ".json" w eq_refl eq_refl)
    as (H1 & H2 & _).
  split; [exact H1 | exact H2].
Defined.

(** X12.  [get] decodes whatever bytes the file of the pair holds, however
    they got there: it returns what the serializer's [deserialize] returns
    on them and raises what it raises, after one existence test and one
    read, and it leaves the entries as they are. *)
Theorem get_decodes_file_content
    (self : LocalFileStorage.t) (key fmt ext : string) (s : Serializer)
    (data : bytes) (w : world) :
  _format_map (_registry self) !! fmt = Some s →
  FORMAT_TO_EXTENSION !! fmt = Some ext →
  files w !! (key +:+ ext) = Some (File data) →
  (LocalFileStorage.get self key fmt w).1 = deserialize s data
  ∧ files (LocalFileStorage.get self key fmt w).2 = files w
  ∧ trace (LocalFileStorage.get self key fmt w).2
    = trace w ++ [SysStat (key +:+ ext); SysRead (key +:+ ext)].
Proof.
  intros Hs Hext Hfile. by rewrite (get_present self key fmt s ext data w).
Qed.

Lemma get_decodes_file_content_witness :
  let w := World {[ "k.json" := File [x7b]%byte ]} [] in
  (LocalFileStorage.get my_storage "k" "json" w).1
  = Err (CodecError "JSONDecodeError").
Proof.
  intros w.
  exact (proj1 (get_decodes_file_content my_storage "k" "json" ".json"
                  (JsonSerializer.new SmallLib.lib) [x7b]%byte w
                  eq_refl eq_refl eq_refl)).
Defined.

(** ** Counting after a change *)

(** X13.  In any base directory, a [save] that returns under a non-empty
    key that is a single path component raises [count] by one when the
    pair had no file, and leaves it as it is when it replaces the file of
    the pair. *)
Theorem count_after_save
    (self : LocalFileStorage.t) (key : string) (value : pyval) (fmt : string)
    (w w' : world) (n : nat) (stored : bool) :
  key ≠ "" → single_component key →
  (LocalFileStorage.exists_ self key fmt w).1 = Ok stored →
  (LocalFileStorage.count self w).1 = Ok n →
  LocalFileStorage.save self key value fmt w = (Ok tt, w') →
  (LocalFileStorage.count self w').1 = Ok (if stored then n else S n).
Proof.
  intros Hkey _ Hex Hcount
    (s & ext & data & Hs & Hext & Hser & Hdir & ->)%save_written.
  rewrite (exists_known _ _ _ _ _ Hext) in Hex. simpl in Hex.
  rewrite (proj1 (count_run self w)) in Hcount.
  rewrite (proj1 (count_run self _)). cbn [files].
  injection Hex as <-. injection Hcount as <-. f_equal.
  assert (Hc : counted (key +:+ ext, File data)) by by eapply counted_stored.
  destruct (files w !! (key +:+ ext)) as [[d|]|] eqn:Hfile.
  - rewrite bool_decide_eq_true_2 by eauto.
    apply (counted_overwrite _ _ (File d)); [done| |done].
    by eapply counted_stored.
  - done.
  - rewrite bool_decide_eq_false_2 by (by intros [? ?]).
    by apply counted_insert_new.
Qed.

Lemma count_after_save_witness :
  (LocalFileStorage.count my_storage
     (LocalFileStorage.save my_storage "a" (PInt 1) "json"
        (World {[ "b.npy" := File [] ]} [])).2).1 = Ok 2%nat.
Proof.
  apply (count_after_save my_storage "a" (PInt 1) "json"
           (World {[ "b.npy" := File [] ]} []) _ 1 false);
    [discriminate | exact I | reflexivity..].
Defined.

(** X14.  A [delete] under a non-empty key that is a single path
    component lowers [count] by one when it returns [True] and leaves it
    as it is when it returns [False]. *)
Theorem count_after_delete
    (self : LocalFileStorage.t) (key fmt : string) (w : world)
    (n : nat) (removed : bool) :
  key ≠ "" → single_component key →
  (LocalFileStorage.delete self key fmt w).1 = Ok removed →
  (LocalFileStorage.count self (LocalFileStorage.delete self key fmt w).2).1 = Ok n →
  (LocalFileStorage.count self w).1 = Ok (if removed then S n else n).
Proof.
  intros Hkey _ Hdel Hcount.
  rewrite (proj1 (count_run self _)) in Hcount. rewrite (proj1 (count_run self w)).
  injection Hcount as <-. f_equal.
  destruct (delete_outcome self key fmt w)
    as [(ext & data & Hext & Hfile & Hr & Hfiles)
       |[(ext & Hext & Hfile & Hr & Hfiles)|(e & Hr & Hfiles)]];
    rewrite Hr in Hdel; [| |done]; injection Hdel as <-; rewrite Hfiles.
  - symmetry. apply (counted_delete _ _ (File data)); [done|].
    by eapply counted_stored.
  - done.
Qed.

Lemma count_after_delete_witness :
  (LocalFileStorage.count my_storage
     (World {[ "a.json" := File []; "b.npy" := File [] ]} [])).1 = Ok 2%nat.
Proof.
  apply (count_after_delete my_storage "a" "json"
           (World {[ "a.json" := File []; "b.npy" := File [] ]} []) 1 true);
    [discriminate | exact I | reflexivity..].
Defined.

(** X15.  Saving a pair that had no file and deleting it right after gives
    back the entries there were before: [delete] returns [True] and the
    base directory holds what it held. *)
Theorem delete_undoes_save
    (self : LocalFileStorage.t) (key : string) (value : pyval) (fmt : string)
    (w w' : world) :
  (LocalFileStorage.exists_ self key fmt w).1 = Ok false →
  LocalFileStorage.save self key value fmt w = (Ok tt, w') →
  (LocalFileStorage.delete self key fmt w').1 = Ok true
  ∧ files (LocalFileStorage.delete self key fmt w').2 = files w.
Proof.
  intros Hex (s & ext & data & Hs & Hext & Hser & Hdir & ->)%save_written.
  rewrite (exists_known _ _ _ _ _ Hext) in Hex. simpl in Hex.
  injection Hex as Hex. apply bool_decide_eq_false in Hex.
  rewrite (delete_present self key fmt ext data); [|done|apply lookup_insert_eq].
  split; [done|]. cbn [snd files].
  rewrite delete_insert_eq. apply delete_id.
  by apply eq_None_not_Some.
Qed.

Lemma delete_undoes_save_witness :
  let w := World {[ "b.npy" := File [] ]} [] in
  files (LocalFileStorage.delete my_storage "a" "json"
           (LocalFileStorage.save my_storage "a" (PInt 1) "json" w).2).2
  = files w.
Proof.
  intros w.
  exact (proj2 (delete_undoes_save my_storage "a" (PInt 1) "json" w _
                  eq_refl eq_refl)).
Defined.

(** ** Formats *)

(** X16.  A serializer registered under a format that the extension table
    does not list is of no use to the storage: [save] and [get] raise the
    [KeyError] of [_get_extension] for that format, before the value is
    encoded and before any file-system call. *)
Theorem registered_format_without_extension
    (self : LocalFileStorage.t) (key : string) (value : pyval) (fmt : string)
    (s : Serializer) (w : world) :
  _format_map (_registry self) !! fmt = Some s →
  FORMAT_TO_EXTENSION !! fmt = None →
  LocalFileStorage.save self key value fmt w = (Err (UnknownFormat fmt), w)
  ∧ LocalFileStorage.get self key fmt w = (Err (UnknownFormat fmt), w).
Proof.
  intros Hs Hnone. split; unfold_ops; by rewrite Hs, Hnone.
Qed.

Lemma registered_format_without_extension_witness :
  let xml := Build_Serializer "xml" (λ _, Ok []) (λ _, Ok PNone) in
  let self := LocalFileStorage.Build "./my_storage"
                (SerializerRegistry.register (_registry my_storage) xml) in
  LocalFileStorage.save self "k" PNone "xml" empty_dir
  = (Err (UnknownFormat "xml"), empty_dir).
Proof.
  intros xml self.
  exact (proj1 (registered_format_without_extension self "k" PNone "xml" xml
                  empty_dir eq_refl eq_refl)).
Defined.

(** ** What is left alone *)



(** X18.  [get], [exists] and [count] only look: whatever they return or
    raise, the entries of the base directory are the same afterwards, and
    the file-system calls they make are existence tests, reads and
    directory scans, never a write or an unlink. *)
Theorem queries_only_look (self : LocalFileStorage.t) (key fmt : string) (w : world) :
  (files (LocalFileStorage.get self key fmt w).2 = files w
   ∧ ∃ calls, trace (LocalFileStorage.get self key fmt w).2 = trace w ++ calls
              ∧ Forall (λ c, read_only_call c) calls)
  ∧ (files (LocalFileStorage.exists_ self key fmt w).2 = files w
     ∧ ∃ calls, trace (LocalFileStorage.exists_ self key fmt w).2 = trace w ++ calls
                ∧ Forall (λ c, read_only_call c) calls)
  ∧ (files (LocalFileStorage.count self w).2 = files w
     ∧ ∃ calls, trace (LocalFileStorage.count self w).2 = trace w ++ calls
                ∧ Forall (λ c, read_only_call c) calls).
Proof.
  split_and!.
  - apply get_keeps_files.
  - unfold_ops.
    destruct (_format_map (_registry self) !! fmt) as [s|];
      [|exists []; by rewrite app_nil_r].
    destruct (FORMAT_TO_EXTENSION !! fmt) as [ext|]; simpl;
      [|exists []; by rewrite app_nil_r].
    destruct (bool_decide _); simpl.
    + exists [SysStat (key +:+ ext); SysRead (key +:+ ext)].
      split; [|by repeat constructor].
      destruct (files w !! (key +:+ ext)) as [[d|]|]; simpl;
        rewrite <- ?app_assoc; try done; by destruct (deserialize s d).
    + exists [SysStat (key +:+ ext)]. split; [done|by repeat constructor].
  - apply exists_keeps_files.
  - unfold_ops. destruct (FORMAT_TO_EXTENSION !! fmt) as [ext|]; simpl.
    + exists [SysStat (key +:+ ext)]. split; [done|by repeat constructor].
    + exists []. by rewrite app_nil_r.
  - apply count_run.
  - unfold LocalFileStorage.count, bind, Path.iterdir.
    rewrite sum_matching_run; simpl.
    exists (SysScandir :: (SysStat <$> (map_to_list (files w)).*1)).
    split; [by rewrite <- app_assoc|].
    constructor; [done|]. apply Forall_fmap, Forall_true. done.
Qed.

(** X19.  The file of the empty key is the bare extension, a name that
    [pathlib] gives no suffix: after a [save] under the empty key [exists]
    returns [True] for the pair and [count] returns what it returned
    before. *)
Theorem empty_key_is_stored_uncounted
    (self : LocalFileStorage.t) (value : pyval) (fmt : string) (w w' : world) :
  (LocalFileStorage.exists_ self "" fmt w).1 = Ok false →
  LocalFileStorage.save self "" value fmt w = (Ok tt, w') →
  (LocalFileStorage.exists_ self "" fmt w').1 = Ok true
  ∧ (LocalFileStorage.count self w').1 = (LocalFileStorage.count self w).1.
Proof.
  intros Hex (s & ext & data & Hs & Hext & Hser & Hdir & ->)%save_written.
  rewrite (exists_known _ _ _ _ _ Hext) in Hex. simpl in Hex.
  injection Hex as Hex. apply bool_decide_eq_false in Hex.
  rewrite (exists_known _ _ _ _ _ Hext). cbn [fst files].
  rewrite lookup_insert_eq. split; [by rewrite bool_decide_eq_true_2 by eauto|].
  rewrite !(proj1 (count_run self _)). cbn [files]. f_equal.
  apply counted_insert_skip; [by apply eq_None_not_Some|].
  intros [_ Hsuf]. simpl in Hsuf.
  apply extension_cases in Hext as [[_ ->]|[_ ->]];
    apply supported_suffixes in Hsuf as [Hsuf|Hsuf]; discriminate Hsuf.
Qed.

Lemma empty_key_is_stored_uncounted_witness :
  (LocalFileStorage.count my_storage
     (LocalFileStorage.save my_storage "" (PArray (NdArray "uint8" [0%nat] [])) "npy"
        (World {[ "a.json" := File [] ]} [])).2).1
  = (LocalFileStorage.count my_storage (World {[ "a.json" := File [] ]} [])).1.
Proof.
  refine (proj2 (empty_key_is_stored_uncounted my_storage
                   (PArray (NdArray "uint8" [0%nat] [])) "npy"
                   (World {[ "a.json" := File [] ]} []) _ eq_refl eq_refl)).
Defined.

(** ** After a change *)

(** X20.  Once [save] has returned, [exists] returns [True] for the pair;
    once [delete] has returned, [exists] returns [False] for it and [get]
    with a registered serializer raises [KeyError("Key not found")]. *)
Theorem exists_follows_last_change
    (self : LocalFileStorage.t) (key : string) (value : pyval) (fmt : string)
    (w : world) :
  (∀ w', LocalFileStorage.save self key value fmt w = (Ok tt, w') →
         (LocalFileStorage.exists_ self key fmt w').1 = Ok true)
  ∧ (∀ removed w',
       LocalFileStorage.delete self key fmt w = (Ok removed, w') →
       (LocalFileStorage.exists_ self key fmt w').1 = Ok false
       ∧ (∀ s, _format_map (_registry self) !! fmt = Some s →
               (LocalFileStorage.get self key fmt w').1 = Err (KeyNotFound key))).
Proof.
  split.
  - intros w' (s & ext & data & Hs & Hext & Hser & Hdir & ->)%save_written.
    rewrite (exists_known _ _ _ _ _ Hext). cbn [fst files].
    rewrite lookup_insert_eq. by rewrite bool_decide_eq_true_2 by eauto.
  - intros removed w' Hdel.
    assert (Hgone : ∃ ext, FORMAT_TO_EXTENSION !! fmt = Some ext
                           ∧ files w' !! (key +:+ ext) = None).
    { destruct (delete_outcome self key fmt w)
        as [(ext & data & Hext & Hfile & Hr & Hfiles)
           |[(ext & Hext & Hfile & Hr & Hfiles)|(e & Hr & Hfiles)]];
        rewrite Hdel in *; simpl in *; [| |done]; exists ext; rewrite Hfiles.
      - split; [done|]. apply lookup_delete_eq.
      - done. }
    destruct Hgone as (ext & Hext & Hnone). split.
    + rewrite (exists_known _ _ _ _ _ Hext). cbn [fst]. rewrite Hnone.
      by rewrite bool_decide_eq_false_2 by (by intros [? ?]).
    + intros s Hs. by rewrite (get_absent self key fmt s ext w' Hs Hext Hnone).
Qed.

Lemma exists_follows_last_change_witness :
  let w := World {[ "a.json" := File [] ]} [] in
  (LocalFileStorage.exists_ my_storage "a" "json"
     (LocalFileStorage.delete my_storage "a" "json" w).2).1 = Ok false
  ∧ (LocalFileStorage.exists_ my_storage "b" "json"
       (LocalFileStorage.save my_storage "b" PNone "json" w).2).1 = Ok true.
Proof.
  intros w.
  destruct (exists_follows_last_change my_storage "a" PNone "json" w) as [_ Hd].
  destruct (exists_follows_last_change my_storage "b" PNone "json" w) as [Hs _].
  split.
  - exact (proj1 (Hd true _ eq_refl)).
  - exact (Hs _ eq_refl).
Defined.
